(** * Attestation trust policy: construction and certificate-extension checks

    A shallow embedding of [pkg/cmd/attestation/verify/policy.go] and the
    properties its specification states about it.

    Go strings are immutable byte sequences; they are embedded as Rocq
    [string]s (sequences of 8-bit [ascii] values).  A Go [error] result is
    an [option error]: [None] is [nil]. *)

From Stdlib Require Import Bool Ascii String List ZArith Lia.
From Stdlib Require Import Permutation.
Import ListNotations.
Local Open Scope string_scope.

Set Default Proof Using "Type".

(** ** The fragment of the Go standard library that policy.go calls *)

Module GoStrings.

(** [s != ""] *)
Definition nonEmpty (s : string) : bool := negb (s =? "").

(** [strings.HasPrefix(s, prefix)] *)
Definition HasPrefix (s pre : string) : bool := String.prefix pre s.

(** [strings.Index(s, substr)]: byte offset of the first occurrence of
    [substr] in [s], or [-1] when there is none. *)
Fixpoint Index (s substr : string) : Z :=
  if HasPrefix s substr then 0%Z
  else match s with
       | EmptyString => (-1)%Z
       | String _ s' =>
           let i := Index s' substr in
           if (i <? 0)%Z then (-1)%Z else (i + 1)%Z
       end.

(** The ASCII loop of [strings.EqualFold]: two bytes agree when they are
    equal or when one is an upper-case letter and the other the same
    letter in lower case.  It coincides with [strings.EqualFold] on
    strings whose bytes are all below [utf8.RuneSelf] (0x80); it is used
    to evaluate the checks on concrete URLs. *)
Definition foldByteEq (sr tr : ascii) : bool :=
  let a := N_of_ascii sr in
  let b := N_of_ascii tr in
  if (a =? b)%N then true
  else
    let lo := N.min a b in
    let hi := N.max a b in
    ((65 <=? lo)%N && (lo <=? 90)%N && (hi =? lo + 32)%N).

(** The value of a byte once an upper-case ASCII letter is mapped to its
    lower case. *)
Definition lowerByte (c : ascii) : N :=
  let n := N_of_ascii c in
  if ((65 <=? n)%N && (n <=? 90)%N)%bool then (n + 32)%N else n.

Fixpoint lowerBytes (s : string) : list N :=
  match s with
  | EmptyString => []
  | String c s' => lowerByte c :: lowerBytes s'
  end.

Fixpoint EqualFoldASCII (s t : string) : bool :=
  match s, t with
  | EmptyString, EmptyString => true
  | String sr s', String tr t' => foldByteEq sr tr && EqualFoldASCII s' t'
  | _, _ => false
  end.

End GoStrings.

Module GoFmt.

(** The rendering of left-over operands, ["%!(EXTRA string=a, string=b)"]. *)
Fixpoint extraOperands (args : list string) : string :=
  match args with
  | [] => ""
  | [a] => "string=" ++ a
  | a :: rest => "string=" ++ a ++ ", " ++ extraOperands rest
  end.

Definition reportExtra (args : list string) : string :=
  match args with
  | [] => ""
  | _ => "%!(EXTRA " ++ extraOperands args ++ ")"
  end.

(** [fmt.Sprintf(format, args...)] for string operands and the verbs
    policy.go uses: ["%s"] consumes the next operand (or prints
    ["%!s(MISSING)"] when none is left), ["%%"] prints a percent sign, a
    trailing ["%"] prints ["%!(NOVERB)"], and operands left over at the end
    are reported.  Every other byte of the format is copied. *)
Fixpoint Sprintf (format : string) (args : list string) : string :=
  match format with
  | EmptyString => reportExtra args
  | String "%" EmptyString => "%!(NOVERB)" ++ reportExtra args
  | String "%" (String "s" rest) =>
      match args with
      | [] => "%!s(MISSING)" ++ Sprintf rest []
      | a :: args' => a ++ Sprintf rest args'
      end
  | String "%" (String "%" rest) => String "%" (Sprintf rest args)
  | String c rest => String c (Sprintf rest args)
  end.

End GoFmt.

(** Go errors.  [errors.New] and [fmt.Errorf] allocate a fresh error that
    carries its message; [verification.ErrNoAttestationsVerified] is a
    package-level sentinel, compared by identity, so it is a constructor of
    its own and no freshly allocated error is ever equal to it. *)
Inductive error : Type :=
| ErrNoAttestationsVerified : error
| errorString (msg : string) : error.

Module GoErrors.
Definition New (text : string) : error := errorString text.
Definition Errorf (format : string) (args : list string) : error :=
  errorString (GoFmt.Sprintf format args).
End GoErrors.

Module GoRegexp.

(** Regular expressions over bytes, matched with Brzozowski derivatives. *)
Inductive regexp : Type :=
| Fail : regexp                          (* matches nothing *)
| Eps : regexp                           (* the empty string *)
| Class (f : ascii -> bool) : regexp     (* one byte satisfying [f] *)
| Cat (r1 r2 : regexp) : regexp
| Alt (r1 r2 : regexp) : regexp
| Star (r : regexp) : regexp.

Definition Plus (r : regexp) : regexp := Cat r (Star r).

Fixpoint nullable (r : regexp) : bool :=
  match r with
  | Fail => false
  | Eps => true
  | Class _ => false
  | Cat r1 r2 => nullable r1 && nullable r2
  | Alt r1 r2 => nullable r1 || nullable r2
  | Star _ => true
  end.

Definition cat (r1 r2 : regexp) : regexp :=
  match r1 with
  | Fail => Fail
  | Eps => r2
  | _ => Cat r1 r2
  end.

Definition alt (r1 r2 : regexp) : regexp :=
  match r1, r2 with
  | Fail, _ => r2
  | _, Fail => r1
  | _, _ => Alt r1 r2
  end.

Fixpoint deriv (c : ascii) (r : regexp) : regexp :=
  match r with
  | Fail => Fail
  | Eps => Fail
  | Class f => if f c then Eps else Fail
  | Cat r1 r2 =>
      if nullable r1 then alt (cat (deriv c r1) r2) (deriv c r2)
      else cat (deriv c r1) r2
  | Alt r1 r2 => alt (deriv c r1) (deriv c r2)
  | Star r1 => cat (deriv c r1) (Star r1)
  end.

Fixpoint fullMatch (r : regexp) (s : string) : bool :=
  match s with
  | EmptyString => nullable r
  | String c s' => fullMatch (deriv c r) s'
  end.

(** The language of a regular expression: the strings it matches in full. *)
Inductive matches : regexp -> string -> Prop :=
| MEps : matches Eps ""
| MClass (f : ascii -> bool) (c : ascii) :
    f c = true -> matches (Class f) (String c "")
| MCat (r1 r2 : regexp) (s1 s2 : string) :
    matches r1 s1 -> matches r2 s2 -> matches (Cat r1 r2) (s1 ++ s2)
| MAltL (r1 r2 : regexp) (s : string) :
    matches r1 s -> matches (Alt r1 r2) s
| MAltR (r1 r2 : regexp) (s : string) :
    matches r2 s -> matches (Alt r1 r2) s
| MStarNil (r : regexp) : matches (Star r) ""
| MStarApp (r : regexp) (s1 s2 : string) :
    matches r s1 -> matches (Star r) s2 -> matches (Star r) (s1 ++ s2).

(** Every byte of [s] satisfies [f]. *)
Fixpoint allBytes (f : ascii -> bool) (s : string) : bool :=
  match s with
  | EmptyString => true
  | String c s' => f c && allBytes f s'
  end.

(** [regexp.MatchString(pattern, s)] for a pattern of the form [^r$]
    (no flags): the whole of [s] must match [r].  The second component is
    the compilation error, [nil] for a pattern that compiles, which every
    [regexp] value stands for. *)
Definition MatchString (pattern : regexp) (s : string) : bool * option error :=
  (fullMatch pattern s, None).

Definition inRange (lo hi : N) (c : ascii) : bool :=
  let n := N_of_ascii c in ((lo <=? n)%N && (n <=? hi)%N).

(** [[a-zA-Z0-9-]] *)
Definition hostChar (c : ascii) : bool :=
  inRange 97 122 c || inRange 65 90 c || inRange 48 57 c || (c =? "-")%char.

(** [\.] *)
Definition dot (c : ascii) : bool := (c =? ".")%char.

(** [.] without the [s] flag: anything but a line feed. *)
Definition anyChar (c : ascii) : bool := negb (N_of_ascii c =? 10)%N.

End GoRegexp.

Import GoStrings GoFmt.

(** ** Data model *)

(** [GitHubRunner]: the GitHub hosted runner in the certificate
    RunnerEnvironment extension. *)
Definition GitHubRunner : string := "github-hosted".

(** [hostRegex], the pattern [^[a-zA-Z0-9-]+\.[a-zA-Z0-9-]+.*$]. *)
Definition hostRegex : GoRegexp.regexp :=
  GoRegexp.Cat (GoRegexp.Plus (GoRegexp.Class GoRegexp.hostChar))
    (GoRegexp.Cat (GoRegexp.Class GoRegexp.dot)
       (GoRegexp.Cat (GoRegexp.Plus (GoRegexp.Class GoRegexp.hostChar))
          (GoRegexp.Star (GoRegexp.Class GoRegexp.anyChar)))).

(** What [hostRegex] looks for: a non-empty run of host bytes, a dot, another
    non-empty run of host bytes, and a rest free of line feeds. *)
Definition hostShaped (s : string) : Prop :=
  exists host label rest,
    s = host ++ "." ++ label ++ rest /\
    host <> "" /\ GoRegexp.allBytes GoRegexp.hostChar host = true /\
    label <> "" /\ GoRegexp.allBytes GoRegexp.hostChar label = true /\
    GoRegexp.allBytes GoRegexp.anyChar rest = true.

(** [type Extensions struct] *)
Module Extensions.
Record t : Type := Build {
  RunnerEnvironment : string;
  SANRegex : string;
  SAN : string;
  BuildSourceRepoURI : string;
  SignerWorkflow : string;
  SourceRepositoryOwnerURI : string;
  SourceRepositoryURI : string
}.

(** The zero value [Extensions{}]. *)
Definition zero : t := Build "" "" "" "" "" "" "".

(** Field assignments [e.F = v]. *)
Definition set_RunnerEnvironment (v : string) (e : t) : t :=
  Build v (SANRegex e) (SAN e) (BuildSourceRepoURI e) (SignerWorkflow e)
    (SourceRepositoryOwnerURI e) (SourceRepositoryURI e).
Definition set_SANRegex (v : string) (e : t) : t :=
  Build (RunnerEnvironment e) v (SAN e) (BuildSourceRepoURI e)
    (SignerWorkflow e) (SourceRepositoryOwnerURI e) (SourceRepositoryURI e).
Definition set_SAN (v : string) (e : t) : t :=
  Build (RunnerEnvironment e) (SANRegex e) v (BuildSourceRepoURI e)
    (SignerWorkflow e) (SourceRepositoryOwnerURI e) (SourceRepositoryURI e).
Definition set_BuildSourceRepoURI (v : string) (e : t) : t :=
  Build (RunnerEnvironment e) (SANRegex e) (SAN e) v (SignerWorkflow e)
    (SourceRepositoryOwnerURI e) (SourceRepositoryURI e).
Definition set_SourceRepositoryOwnerURI (v : string) (e : t) : t :=
  Build (RunnerEnvironment e) (SANRegex e) (SAN e) (BuildSourceRepoURI e)
    (SignerWorkflow e) v (SourceRepositoryURI e).
Definition set_SourceRepositoryURI (v : string) (e : t) : t :=
  Build (RunnerEnvironment e) (SANRegex e) (SAN e) (BuildSourceRepoURI e)
    (SignerWorkflow e) (SourceRepositoryOwnerURI e) v.
End Extensions.

(** [type Policy struct].  [artifact.DigestedArtifact] is opaque to this
    file, so the record is parameterised by it. *)
Module Policy.
Record t (DigestedArtifact : Type) : Type := Build {
  Extensions : Extensions.t;
  PredicateType : string;
  Artifact : DigestedArtifact;
  OIDCIssuer : string
}.
Arguments Build {DigestedArtifact} _ _ _ _.
Arguments Extensions {DigestedArtifact} _.
Arguments PredicateType {DigestedArtifact} _.
Arguments Artifact {DigestedArtifact} _.
Arguments OIDCIssuer {DigestedArtifact} _.

(** [p.Extensions.F = v], through an update of the nested record. *)
Definition update_Extensions {A : Type} (f : Extensions.t -> Extensions.t)
    (p : t A) : t A :=
  Build (f (Extensions p)) (PredicateType p) (Artifact p) (OIDCIssuer p).
(** [p.OIDCIssuer = v] *)
Definition set_OIDCIssuer {A : Type} (v : string) (p : t A) : t A :=
  Build (Extensions p) (PredicateType p) (Artifact p) v.
End Policy.

(** Modelled from the spec: the declaration of [Options] is in another file
    of the package; section 4.1 of the specification lists the fields that
    policy construction reads. *)
Module Options.
Record t : Type := Build {
  SignerRepo : string;
  SignerWorkflow : string;
  SAN : string;
  SANRegex : string;
  DenySelfHostedRunner : bool;
  Repo : string;
  Tenant : string;
  Owner : string;
  Hostname : string;
  OIDCIssuer : string
}.

(** The bundle [opts] with its [Repo] field replaced. *)
Definition set_Repo (v : string) (opts : t) : t :=
  Build (SignerRepo opts) (SignerWorkflow opts) (SAN opts) (SANRegex opts)
    (DenySelfHostedRunner opts) v (Tenant opts) (Owner opts) (Hostname opts)
    (OIDCIssuer opts).

(** The bundle [opts] with its [Owner] field replaced. *)
Definition set_Owner (v : string) (opts : t) : t :=
  Build (SignerRepo opts) (SignerWorkflow opts) (SAN opts) (SANRegex opts)
    (DenySelfHostedRunner opts) (Repo opts) (Tenant opts) v (Hostname opts)
    (OIDCIssuer opts).

(** The bundle [opts] with its [OIDCIssuer] field replaced. *)
Definition set_OIDCIssuer (v : string) (opts : t) : t :=
  Build (SignerRepo opts) (SignerWorkflow opts) (SAN opts) (SANRegex opts)
    (DenySelfHostedRunner opts) (Repo opts) (Tenant opts) (Owner opts)
    (Hostname opts) v.

(** The bundle [opts] with its [SAN] and [SANRegex] fields replaced. *)
Definition set_rawSAN (san sanRegex : string) (opts : t) : t :=
  Build (SignerRepo opts) (SignerWorkflow opts) san sanRegex
    (DenySelfHostedRunner opts) (Repo opts) (Tenant opts) (Owner opts)
    (Hostname opts) (OIDCIssuer opts).

(** The bundle [opts] with its [SignerWorkflow] and [Hostname] fields
    replaced. *)
Definition set_workflow (workflow hostname : string) (opts : t) : t :=
  Build (SignerRepo opts) workflow (SAN opts) (SANRegex opts)
    (DenySelfHostedRunner opts) (Repo opts) (Tenant opts) (Owner opts)
    hostname (OIDCIssuer opts).
End Options.

(** The certificate extensions that the evaluator reads from a processing
    result, reached in the source through
    [attestation.VerificationResult.Signature.Certificate.Extensions].  The
    pointers on that path are non-nil for a result produced by the
    verifier. *)
Module Certificate.
Record Extensions : Type := BuildExtensions {
  Issuer : string;
  SourceRepositoryOwnerURI : string;
  SourceRepositoryURI : string
}.
Record Summary : Type := BuildSummary { Extensions_ : Extensions }.

(** The literal [certificate.Extensions{RunnerEnvironment: v}] that the
    certificate identity is built from: every other field is left at its
    zero value. *)
Record RequiredExtensions : Type :=
  BuildRequiredExtensions { RunnerEnvironment : string }.
End Certificate.

Module Verification.
Record SignatureVerificationResult : Type :=
  BuildSignature { Certificate : Certificate.Summary }.
Record VerificationResult : Type :=
  BuildVerificationResult { Signature : SignatureVerificationResult }.
Record AttestationProcessingResult : Type :=
  BuildResult { VerificationResult_ : VerificationResult }.

(** [r.VerificationResult.Signature.Certificate.Extensions] *)
Definition certExtensions (r : AttestationProcessingResult)
    : Certificate.Extensions :=
  Certificate.Extensions_ (Certificate (Signature (VerificationResult_ r))).

(** A processing result carrying the given certificate extensions. *)
Definition resultOf (e : Certificate.Extensions) : AttestationProcessingResult :=
  BuildResult (BuildVerificationResult (BuildSignature (Certificate.BuildSummary e))).
End Verification.

(** ** Instances of the collaborators, for evaluating concrete cases *)

Module Api.
(** Modelled from the spec: [api.Attestation] is declared in another package;
    section 6 of the specification says an attestation envelope exposes a
    predicate-type string.  [ident] tells envelopes apart. *)
Record Attestation : Type := BuildAttestation {
  ident : nat;
  PredicateType : string
}.

(** Modelled from the spec: [verification.FilterAttestations] is defined in
    another package; section 4.4 of the specification describes it as a pure
    filter on the declared predicate type that preserves input order. *)
Definition FilterAttestations (predicateType : string)
    (attestations : list Attestation) : list Attestation :=
  List.filter (fun each => PredicateType each =? predicateType) attestations.
End Api.

(** A tenant issuer format and an artifact descriptor to build policies with. *)
Definition exampleTenantIssuer : string := "https://token.actions.%s.ghe.com".
Definition exampleArtifact : string := "sha256:0000".

(** Option bundles. *)
Definition signerRepoOptions (tenant : string) : Options.t :=
  Options.Build "octo/signer" "octo/repo/.github/workflows/ci.yml"
    "https://example.com/san" "^https://example" false "" tenant "octo"
    "github.com" "".

Definition workflowOptions (workflow hostname : string) : Options.t :=
  Options.Build "" workflow "https://example.com/san" "^https://example"
    false "" "" "octo" hostname "".

Definition rawSANOptions : Options.t :=
  Options.Build "" "" "https://example.com/san" "^https://example" false ""
    "" "octo" "" "".

Definition repoOptions (tenant : string) (deny : bool) : Options.t :=
  Options.Build "" "" "" "" deny "octo/repo" tenant "octo" "github.com"
    "https://token.actions.githubusercontent.com".

(** A policy that constrains the owner and the issuer, as [newPolicy]
    builds them. *)
Definition ownerIssuerPolicy (owner issuer : string) : Policy.t string :=
  Policy.Build
    (Extensions.set_SourceRepositoryOwnerURI owner
       (Extensions.set_RunnerEnvironment "*" Extensions.zero))
    "" exampleArtifact issuer.

(** A processing result with the given issuer, owner and repository. *)
Definition observed (issuer owner repo : string)
    : Verification.AttestationProcessingResult :=
  Verification.resultOf (Certificate.BuildExtensions issuer owner repo).

(** A policy that also constrains the repository, which [newPolicy] never
    builds. *)
Definition ownerRepositoryPolicy (owner repository : string) : Policy.t string :=
  Policy.Build
    (Extensions.set_SourceRepositoryURI repository
       (Extensions.set_SourceRepositoryOwnerURI owner Extensions.zero))
    "" exampleArtifact "".

Definition slsaProvenance : string := "https://slsa.dev/provenance/v1".
Definition spdxDocument : string := "https://spdx.dev/Document/v2.3".

Definition predicatePolicy (predicateType : string) : Policy.t string :=
  Policy.Build Extensions.zero predicateType exampleArtifact "".

(** ** policy.go *)

(** Sequencing of checks that return an error: the first error is returned
    and the remaining checks are not run. *)
Definition orElse (check : option error) (next : option error) : option error :=
  match check with
  | Some err => Some err
  | None => next
  end.

Notation "c ;;; k" := (orElse c k) (at level 61, right associativity).

(** The bytes of the cross mark (U+2717) that opens the predicate-type
    message, and the line feed that closes it. *)
Definition crossMark : string := String "226" (String "156" (String "151" "")).
Definition lineFeed : string := String "010" "".

Section PolicyCore.

(** [artifact.DigestedArtifact] and its zero value. *)
Variable DigestedArtifact : Type.
Variable zeroArtifact : DigestedArtifact.

(** [verification.GitHubTenantOIDCIssuer], the format of a tenant's
    default issuer. *)
Variable GitHubTenantOIDCIssuer : string.

(** [strings.EqualFold]: equality under Unicode simple case folding. *)
Variable EqualFold : string -> string -> bool.

(** [api.Attestation] and [verification.FilterAttestations]. *)
Variable Attestation : Type.
Variable FilterAttestations : string -> list Attestation -> list Attestation.

Abbreviation Policy := (Policy.t DigestedArtifact).

(** [Policy{}] *)
Definition zeroPolicy : Policy :=
  Policy.Build Extensions.zero "" zeroArtifact "".

Definition expandToGitHubURL (tenant ownerOrRepo : string) : string :=
  if tenant =? "" then
    Sprintf "(?i)^https://github.com/%s/" [ownerOrRepo]
  else
    Sprintf "(?i)^https://%s.ghe.com/%s/" [tenant; ownerOrRepo].

Definition validateSignerWorkflow (opts : Options.t) : string * option error :=
  let '(matched, err) :=
    GoRegexp.MatchString hostRegex (Options.SignerWorkflow opts) in
  match err with
  | Some e => ("", Some e)
  | None =>
      if matched then
        (Sprintf "^https://%s" [Options.SignerWorkflow opts], None)
      else if Options.Hostname opts =? "" then
        ("", Some (GoErrors.New "unknown host"))
      else
        (Sprintf "^https://%s/%s"
           [Options.Hostname opts; Options.SignerWorkflow opts], None)
  end.

(** The first statement group of [newPolicy]: the SAN fields of [p], or
    the error of the workflow validation. *)
Definition resolveSAN (opts : Options.t) (p : Policy) : Policy + error :=
  if nonEmpty (Options.SignerRepo opts) then
    let signedRepoRegex :=
      expandToGitHubURL (Options.Tenant opts) (Options.SignerRepo opts) in
    inl (Policy.update_Extensions (Extensions.set_SANRegex signedRepoRegex) p)
  else if nonEmpty (Options.SignerWorkflow opts) then
    match validateSignerWorkflow opts with
    | (_, Some err) => inr err
    | (validatedWorkflowRegex, None) =>
        inl (Policy.update_Extensions
               (Extensions.set_SANRegex validatedWorkflowRegex) p)
    end
  else
    let p := Policy.update_Extensions
               (Extensions.set_SANRegex (Options.SANRegex opts)) p in
    inl (Policy.update_Extensions (Extensions.set_SAN (Options.SAN opts)) p).

Definition newPolicy (opts : Options.t) (a : DigestedArtifact)
    : Policy * option error :=
  let p := Policy.Build Extensions.zero "" a "" in
  match resolveSAN opts p with
  | inr err => (zeroPolicy, Some err)
  | inl p =>
      let p :=
        if Options.DenySelfHostedRunner opts then
          Policy.update_Extensions
            (Extensions.set_RunnerEnvironment GitHubRunner) p
        else
          Policy.update_Extensions (Extensions.set_RunnerEnvironment "*") p in
      let p :=
        if nonEmpty (Options.Repo opts) then
          let p :=
            if nonEmpty (Options.Tenant opts) then
              Policy.update_Extensions
                (Extensions.set_BuildSourceRepoURI
                   (Sprintf "https://%s.ghe.com/%s"
                      [Options.Tenant opts; Options.Repo opts])) p
            else p in
          Policy.update_Extensions
            (Extensions.set_BuildSourceRepoURI
               (Sprintf "https://github.com/%s" [Options.Repo opts])) p
        else p in
      let p :=
        if nonEmpty (Options.Tenant opts) then
          Policy.update_Extensions
            (Extensions.set_SourceRepositoryOwnerURI
               (Sprintf "https://%s.ghe.com/%s"
                  [Options.Tenant opts; Options.Owner opts])) p
        else
          Policy.update_Extensions
            (Extensions.set_SourceRepositoryOwnerURI
               (Sprintf "https://github.com/%s" [Options.Owner opts])) p in
      let p :=
        if nonEmpty (Options.Tenant opts) then
          Policy.set_OIDCIssuer
            (Sprintf GitHubTenantOIDCIssuer [Options.Tenant opts]) p
        else
          Policy.set_OIDCIssuer (Options.OIDCIssuer opts) p in
      (p, None)
  end.

(** [(p *Policy) VerifyPredicateType]; the [nil] slice is the empty list. *)
Definition VerifyPredicateType (p : Policy) (a : list Attestation)
    : list Attestation * option error :=
  let filteredAttestations := FilterAttestations (Policy.PredicateType p) a in
  if (List.length filteredAttestations =? 0)%nat then
    ([], Some (GoErrors.Errorf
                 (crossMark ++ " No attestations found with predicate type: %s"
                    ++ lineFeed)
                 [Policy.PredicateType p]))
  else (filteredAttestations, None).

Definition checkSourceRepositoryOwnerURI (p : Policy)
    (attestation : Verification.AttestationProcessingResult) : option error :=
  if nonEmpty (Extensions.SourceRepositoryOwnerURI (Policy.Extensions p)) then
    let sourceRepositoryOwnerURI :=
      Certificate.SourceRepositoryOwnerURI
        (Verification.certExtensions attestation) in
    if negb (EqualFold
               (Extensions.SourceRepositoryOwnerURI (Policy.Extensions p))
               sourceRepositoryOwnerURI) then
      Some (GoErrors.Errorf "expected SourceRepositoryOwnerURI to be %s, got %s"
              [Extensions.SourceRepositoryOwnerURI (Policy.Extensions p);
               sourceRepositoryOwnerURI])
    else None
  else None.

(** "if repo is set, check the SourceRepositoryURI field" *)
Definition checkSourceRepositoryURI (p : Policy)
    (attestation : Verification.AttestationProcessingResult) : option error :=
  if nonEmpty (Extensions.SourceRepositoryURI (Policy.Extensions p)) then
    let sourceRepositoryURI :=
      Certificate.SourceRepositoryURI
        (Verification.certExtensions attestation) in
    if negb (EqualFold
               (Extensions.SourceRepositoryURI (Policy.Extensions p))
               sourceRepositoryURI) then
      Some (GoErrors.Errorf "expected SourceRepositoryURI to be %s, got %s"
              [Extensions.SourceRepositoryURI (Policy.Extensions p);
               sourceRepositoryURI])
    else None
  else None.

Definition checkOIDCIssuer (p : Policy)
    (attestation : Verification.AttestationProcessingResult) : option error :=
  if nonEmpty (Policy.OIDCIssuer p) then
    let certIssuer :=
      Certificate.Issuer (Verification.certExtensions attestation) in
    if negb (EqualFold (Policy.OIDCIssuer p) certIssuer) then
      if (Index certIssuer (Policy.OIDCIssuer p ++ "/") =? 0)%Z then
        Some (GoErrors.Errorf
                "expected Issuer to be %s, got %s -- if you have a custom OIDC issuer policy for your enterprise, use the --cert-oidc-issuer flag with your expected issuer"
                [Policy.OIDCIssuer p; certIssuer])
      else
        Some (GoErrors.Errorf "expected Issuer to be %s, got %s"
                [Policy.OIDCIssuer p; certIssuer])
    else None
  else None.

(** [(p *Policy) verifyCertExtensions]: the three guarded checks in source
    order. *)
Definition verifyCertExtensions (p : Policy)
    (attestation : Verification.AttestationProcessingResult) : option error :=
  checkSourceRepositoryOwnerURI p attestation ;;;
  checkSourceRepositoryURI p attestation ;;;
  checkOIDCIssuer p attestation.

(** The [for ... range results] loop of [VerifyCertExtensions], with the
    flag it maintains: [inl err] is the early [return err], [inr flag] the
    value of [atLeastOneVerified] when the loop ends. *)
Fixpoint verifyEach (p : Policy)
    (results : list Verification.AttestationProcessingResult)
    (atLeastOneVerified : bool) : error + bool :=
  match results with
  | [] => inr atLeastOneVerified
  | attestation :: rest =>
      match verifyCertExtensions p attestation with
      | Some err => inl err
      | None => verifyEach p rest true
      end
  end.

Definition VerifyCertExtensions (p : Policy)
    (results : list Verification.AttestationProcessingResult) : option error :=
  if (List.length results =? 0)%nat then
    Some (GoErrors.New "no attestations proccessing results")
  else
    match verifyEach p results false with
    | inl err => Some err
    | inr atLeastOneVerified =>
        if atLeastOneVerified then None
        else Some ErrNoAttestationsVerified
    end.

(** *** What the specification calls satisfying a constraint *)

(** A field of the policy is satisfied by an observed value when it is empty
    (unconstrained) or equal to it up to case. *)
Definition fieldSatisfied (expected observed : string) : Prop :=
  expected = "" \/ EqualFold expected observed = true.

(** A result satisfies every populated constraint of the policy. *)
Definition satisfies (p : Policy)
    (r : Verification.AttestationProcessingResult) : Prop :=
  fieldSatisfied (Extensions.SourceRepositoryOwnerURI (Policy.Extensions p))
    (Certificate.SourceRepositoryOwnerURI (Verification.certExtensions r)) /\
  fieldSatisfied (Extensions.SourceRepositoryURI (Policy.Extensions p))
    (Certificate.SourceRepositoryURI (Verification.certExtensions r)) /\
  fieldSatisfied (Policy.OIDCIssuer p)
    (Certificate.Issuer (Verification.certExtensions r)).

(** The two issuer errors. *)
Definition issuerRemediationError (expected observed : string) : error :=
  errorString
    ("expected Issuer to be " ++ expected ++ ", got " ++ observed
       ++ " -- if you have a custom OIDC issuer policy for your enterprise, use the --cert-oidc-issuer flag with your expected issuer").

Definition issuerMismatchError (expected observed : string) : error :=
  errorString ("expected Issuer to be " ++ expected ++ ", got " ++ observed).

(** *** The rest of policy.go *)

(** [(p *Policy) Verify] *)
Definition Verify (p : Policy) (a : list Attestation) : bool * string :=
  let filtered := FilterAttestations (Policy.PredicateType p) a in
  if (List.length filtered =? 0)%nat then
    (false,
     Sprintf (crossMark ++ " No attestations found with predicate type: %s"
                ++ lineFeed)
       [Policy.PredicateType p])
  else (true, "").

(** The constructors of the sigstore-go [verify] package and
    [verification.BuildDigestPolicyOption], with the types they build.
    [nilPolicyOption] is the [nil] value of the function type
    [verify.PolicyOption], [zeroPolicyBuilder] is [verify.PolicyBuilder{}]. *)
Variables SANMatcher IssuerMatcher CertificateIdentity : Type.
Variables PolicyOption ArtifactPolicyOption PolicyBuilder : Type.
Variable nilPolicyOption : PolicyOption.
Variable zeroPolicyBuilder : PolicyBuilder.
Variable NewSANMatcher : string -> string -> SANMatcher * option error.
Variable NewIssuerMatcher : string -> string -> IssuerMatcher * option error.
Variable NewCertificateIdentity :
  SANMatcher -> IssuerMatcher -> Certificate.RequiredExtensions ->
  CertificateIdentity * option error.
Variable WithCertificateIdentity : CertificateIdentity -> PolicyOption.
Variable BuildDigestPolicyOption :
  DigestedArtifact -> ArtifactPolicyOption * option error.
Variable NewPolicy : ArtifactPolicyOption -> PolicyOption -> PolicyBuilder.

(** [(p *Policy) buildCertificateIdentityOption] *)
Definition buildCertificateIdentityOption (p : Policy)
    : PolicyOption * option error :=
  match NewSANMatcher (Extensions.SAN (Policy.Extensions p))
          (Extensions.SANRegex (Policy.Extensions p)) with
  | (_, Some err) => (nilPolicyOption, Some err)
  | (sanMatcher, None) =>
      (* Accept any issuer, we will verify the issuer as part of the
         extension verification *)
      match NewIssuerMatcher "" ".*" with
      | (_, Some err) => (nilPolicyOption, Some err)
      | (issuerMatcher, None) =>
          let extensions :=
            Certificate.BuildRequiredExtensions
              (Extensions.RunnerEnvironment (Policy.Extensions p)) in
          match NewCertificateIdentity sanMatcher issuerMatcher extensions with
          | (_, Some err) => (nilPolicyOption, Some err)
          | (certId, None) => (WithCertificateIdentity certId, None)
          end
      end
  end.

(** [(p *Policy) SigstorePolicy] *)
Definition SigstorePolicy (p : Policy) : PolicyBuilder * option error :=
  match BuildDigestPolicyOption (Policy.Artifact p) with
  | (_, Some err) => (zeroPolicyBuilder, Some err)
  | (artifactDigestPolicyOption, None) =>
      match buildCertificateIdentityOption p with
      | (_, Some err) => (zeroPolicyBuilder, Some err)
      | (certIdOption, None) =>
          let policy := NewPolicy artifactDigestPolicyOption certIdOption in
          (policy, None)
      end
  end.

(** *** Comparing policies *)

(** [q] asks for no more than [p]: each field that the extension check
    reads is either unconstrained in [q] or the same as in [p]. *)
Definition relaxes (q p : Policy) : Prop :=
  (Extensions.SourceRepositoryOwnerURI (Policy.Extensions q) = "" \/
   Extensions.SourceRepositoryOwnerURI (Policy.Extensions q)
   = Extensions.SourceRepositoryOwnerURI (Policy.Extensions p)) /\
  (Extensions.SourceRepositoryURI (Policy.Extensions q) = "" \/
   Extensions.SourceRepositoryURI (Policy.Extensions q)
   = Extensions.SourceRepositoryURI (Policy.Extensions p)) /\
  (Policy.OIDCIssuer q = "" \/ Policy.OIDCIssuer q = Policy.OIDCIssuer p).

(** ** Facts about the library fragment *)

Lemma nonEmpty_true_iff (s : string) : nonEmpty s = true <-> s <> "".
Proof.
  unfold nonEmpty. rewrite negb_true_iff. apply String.eqb_neq.
Qed.

Lemma nonEmpty_false_iff (s : string) : nonEmpty s = false <-> s = "".
Proof.
  unfold nonEmpty. rewrite negb_false_iff. apply String.eqb_eq.
Qed.

Lemma HasPrefix_app (pre rest : string) : HasPrefix (pre ++ rest) pre = true.
Proof.
  unfold HasPrefix.
  induction pre as [|c pre IH]; simpl.
  - destruct rest; reflexivity.
  - destruct (ascii_dec c c) as [_|ne]; [exact IH | contradiction].
Qed.

Lemma HasPrefix_inv (s pre : string) :
  HasPrefix s pre = true -> exists rest, s = pre ++ rest.
Proof.
  unfold HasPrefix. revert s.
  induction pre as [|c pre IH]; intros s H.
  - exists s. reflexivity.
  - destruct s as [|d s]; simpl in H; [discriminate|].
    destruct (ascii_dec c d) as [e|ne]; [subst d | discriminate].
    destruct (IH s H) as [rest ->]. exists rest. reflexivity.
Qed.

(** [strings.Index(s, substr) == 0] is the prefix test. *)
Lemma Index_zero_iff (s substr : string) :
  Index s substr = 0%Z <-> HasPrefix s substr = true.
Proof.
  destruct s as [|c s]; cbn [Index];
    destruct (HasPrefix _ substr); split; intros H;
    try reflexivity; try discriminate.
  destruct (Z.ltb_spec (Index s substr) 0); [discriminate | lia].
Qed.

Lemma Index_eqb_zero (s substr : string) :
  (Index s substr =? 0)%Z = HasPrefix s substr.
Proof.
  destruct (HasPrefix s substr) eqn:E.
  - apply Z.eqb_eq, Index_zero_iff, E.
  - apply Z.eqb_neq. intro H. apply Index_zero_iff in H. congruence.
Qed.

Lemma append_empty_r (s : string) : s ++ "" = s.
Proof.
  induction s as [|c s IH]; simpl; [reflexivity | now rewrite IH].
Qed.

(** The formats of policy.go, applied to their operands. *)
Lemma Sprintf_github_url (x : string) :
  Sprintf "https://github.com/%s" [x] = "https://github.com/" ++ x.
Proof. simpl. now rewrite append_empty_r. Qed.

Lemma Sprintf_tenant_url (tenant x : string) :
  Sprintf "https://%s.ghe.com/%s" [tenant; x]
  = "https://" ++ tenant ++ ".ghe.com/" ++ x.
Proof. simpl. now rewrite append_empty_r. Qed.

Lemma Sprintf_issuer_mismatch (expected observed : string) :
  GoErrors.Errorf "expected Issuer to be %s, got %s" [expected; observed]
  = issuerMismatchError expected observed.
Proof.
  unfold GoErrors.Errorf, issuerMismatchError. simpl.
  now rewrite append_empty_r.
Qed.

Lemma Sprintf_issuer_remediation (expected observed : string) :
  GoErrors.Errorf
    "expected Issuer to be %s, got %s -- if you have a custom OIDC issuer policy for your enterprise, use the --cert-oidc-issuer flag with your expected issuer"
    [expected; observed]
  = issuerRemediationError expected observed.
Proof. reflexivity. Qed.

(** [EqualFoldASCII] is equality of the lower-cased byte sequences. *)
Lemma foldByteEq_lowerByte (sr tr : ascii) :
  foldByteEq sr tr = true <-> lowerByte sr = lowerByte tr.
Proof.
  unfold foldByteEq, lowerByte.
  set (a := N_of_ascii sr). set (b := N_of_ascii tr).
  destruct (N.eqb_spec a b) as [->|Hne]; [split; reflexivity|].
  rewrite !andb_true_iff, !N.leb_le, N.eqb_eq.
  destruct (N.leb_spec 65 a), (N.leb_spec a 90),
    (N.leb_spec 65 b), (N.leb_spec b 90); cbn [andb]; lia.
Qed.

Lemma EqualFoldASCII_lowerBytes (s t : string) :
  EqualFoldASCII s t = true <-> lowerBytes s = lowerBytes t.
Proof.
  revert t. induction s as [|c s IH]; intros [|d t]; simpl;
    try (split; intros H; (reflexivity || discriminate)).
  rewrite andb_true_iff, foldByteEq_lowerByte, IH. split.
  - intros [-> ->]. reflexivity.
  - intros H. injection H as H1 H2. auto.
Qed.

(** *** The derivative matcher computes the language *)

Import GoRegexp.

Lemma matches_Fail_inv (s : string) : ~ matches Fail s.
Proof. intros H. inversion H. Qed.

Lemma matches_Eps_inv (s : string) : matches Eps s -> s = "".
Proof. intros H. inversion H. reflexivity. Qed.

Lemma matches_Class_inv (f : ascii -> bool) (s : string) :
  matches (Class f) s -> exists c, s = String c "" /\ f c = true.
Proof. intros H. inversion H; subst. eauto. Qed.

Lemma matches_Cat_inv (r1 r2 : regexp) (s : string) :
  matches (Cat r1 r2) s ->
  exists s1 s2, s = s1 ++ s2 /\ matches r1 s1 /\ matches r2 s2.
Proof. intros H. inversion H; subst. eauto. Qed.

Lemma matches_Alt_inv (r1 r2 : regexp) (s : string) :
  matches (Alt r1 r2) s -> matches r1 s \/ matches r2 s.
Proof. intros H. inversion H; subst; auto. Qed.

Lemma matches_cat (r1 r2 : regexp) (s : string) :
  matches (cat r1 r2) s <-> matches (Cat r1 r2) s.
Proof.
  destruct r1; simpl; try (split; intros H; exact H).
  - split; intros H.
    + elim (matches_Fail_inv _ H).
    + apply matches_Cat_inv in H. destruct H as (s1 & s2 & _ & H1 & _).
      elim (matches_Fail_inv _ H1).
  - split; intros H.
    + apply (MCat Eps r2 "" s); [constructor | exact H].
    + apply matches_Cat_inv in H. destruct H as (s1 & s2 & -> & H1 & H2).
      apply matches_Eps_inv in H1. subst s1. exact H2.
Qed.

Lemma matches_alt (r1 r2 : regexp) (s : string) :
  matches (alt r1 r2) s <-> matches (Alt r1 r2) s.
Proof.
  split.
  - intros H. destruct r1, r2; simpl in H;
      first [ exact H | apply MAltL; exact H | apply MAltR; exact H ].
  - intros H. apply matches_Alt_inv in H.
    destruct H as [H|H]; destruct r1, r2; simpl;
      first [ exact H
            | elim (matches_Fail_inv _ H)
            | apply MAltL; exact H
            | apply MAltR; exact H ].
Qed.

Lemma nullable_iff (r : regexp) : nullable r = true <-> matches r "".
Proof.
  induction r as [| |f|r1 IH1 r2 IH2|r1 IH1 r2 IH2|r IH]; simpl.
  - split; intros H; [discriminate | elim (matches_Fail_inv _ H)].
  - split; intros H; [constructor | reflexivity].
  - split; intros H; [discriminate|].
    apply matches_Class_inv in H. destruct H as (c & Hc & _). discriminate.
  - rewrite andb_true_iff, IH1, IH2. split.
    + intros [H1 H2]. apply (MCat r1 r2 "" ""); assumption.
    + intros H. apply matches_Cat_inv in H.
      destruct H as (s1 & s2 & Heq & H1 & H2).
      destruct s1; [|discriminate]. simpl in Heq. subst s2. auto.
  - rewrite orb_true_iff, IH1, IH2. split.
    + intros [H|H]; [apply MAltL | apply MAltR]; assumption.
    + apply matches_Alt_inv.
  - split; intros H; [constructor | reflexivity].
Qed.

Lemma matches_star_cons (r : regexp) (c : ascii) (s : string) :
  matches (Star r) (String c s) ->
  exists s1 s2,
    s = s1 ++ s2 /\ matches r (String c s1) /\ matches (Star r) s2.
Proof.
  intros H.
  remember (Star r) as sr eqn:Hsr. remember (String c s) as cs eqn:Hcs.
  revert Hsr Hcs.
  induction H as [| | | | | |r0 s1 s2 H1 _ H2 IH2]; intros Hsr Hcs;
    try discriminate.
  injection Hsr as ->.
  destruct s1 as [|d s1]; simpl in Hcs.
  - apply IH2; [reflexivity | exact Hcs].
  - injection Hcs as -> <-. exists s1, s2. auto.
Qed.

Lemma deriv_iff (c : ascii) (r : regexp) :
  forall s, matches (deriv c r) s <-> matches r (String c s).
Proof.
  induction r as [| |f|r1 IH1 r2 IH2|r1 IH1 r2 IH2|r IH]; intros s; simpl.
  - split; intros H; elim (matches_Fail_inv _ H).
  - split; intros H; [elim (matches_Fail_inv _ H)|].
    apply matches_Eps_inv in H. discriminate.
  - destruct (f c) eqn:Hf; split; intros H.
    + apply matches_Eps_inv in H. subst s. constructor. exact Hf.
    + apply matches_Class_inv in H. destruct H as (d & Hd & _).
      injection Hd as _ ->. constructor.
    + elim (matches_Fail_inv _ H).
    + apply matches_Class_inv in H. destruct H as (d & Hd & Hfd).
      injection Hd as -> _. congruence.
  - assert (Hcat : matches (Cat (deriv c r1) r2) s ->
                   matches (Cat r1 r2) (String c s)).
    { intros H. apply matches_Cat_inv in H.
      destruct H as (s1 & s2 & -> & H1 & H2).
      apply IH1 in H1. apply (MCat r1 r2 (String c s1) s2); assumption. }
    destruct (nullable r1) eqn:Hn.
    + rewrite matches_alt. split; intros H.
      * apply matches_Alt_inv in H. destruct H as [HL|HR].
        -- apply Hcat, matches_cat, HL.
        -- apply IH2 in HR. apply nullable_iff in Hn.
           apply (MCat r1 r2 "" (String c s)); assumption.
      * apply matches_Cat_inv in H. destruct H as (s1 & s2 & Heq & H1 & H2).
        destruct s1 as [|d s1]; simpl in Heq.
        -- subst s2. apply MAltR, IH2, H2.
        -- injection Heq as -> ->.
           apply MAltL, matches_cat, MCat; [apply IH1, H1 | exact H2].
    + rewrite matches_cat. split; intros H; [exact (Hcat H)|].
      apply matches_Cat_inv in H. destruct H as (s1 & s2 & Heq & H1 & H2).
      destruct s1 as [|d s1]; simpl in Heq.
      * apply nullable_iff in H1. congruence.
      * injection Heq as -> ->. apply MCat; [apply IH1, H1 | exact H2].
  - rewrite matches_alt. split; intros H; apply matches_Alt_inv in H;
      destruct H as [H|H];
      first [ apply MAltL, IH1, H | apply MAltR, IH2, H ].
  - rewrite matches_cat. split; intros H.
    + apply matches_Cat_inv in H. destruct H as (s1 & s2 & -> & H1 & H2).
      apply IH in H1. apply (MStarApp r (String c s1) s2); assumption.
    + destruct (matches_star_cons r c s H) as (s1 & s2 & -> & H1 & H2).
      apply MCat; [apply IH, H1 | exact H2].
Qed.

Lemma fullMatch_iff (r : regexp) (s : string) :
  fullMatch r s = true <-> matches r s.
Proof.
  revert r. induction s as [|c s IH]; intros r; simpl.
  - apply nullable_iff.
  - rewrite IH. apply deriv_iff.
Qed.

Lemma matches_star_class (f : ascii -> bool) (s : string) :
  matches (Star (Class f)) s <-> allBytes f s = true.
Proof.
  split.
  - intros H. remember (Star (Class f)) as sr eqn:Hsr. revert Hsr.
    induction H as [| | | | | |r0 s1 s2 H1 _ H2 IH2]; intros Hsr;
      try discriminate.
    + reflexivity.
    + injection Hsr as ->. apply matches_Class_inv in H1.
      destruct H1 as (c & -> & Hf).
      simpl. rewrite Hf. apply IH2. reflexivity.
  - induction s as [|c s IH]; simpl; intros H.
    + constructor.
    + apply andb_true_iff in H. destruct H as [Hf Hs].
      apply (MStarApp (Class f) (String c "") s); [constructor; exact Hf | auto].
Qed.

Lemma matches_plus_class (f : ascii -> bool) (s : string) :
  matches (Plus (Class f)) s <-> s <> "" /\ allBytes f s = true.
Proof.
  unfold Plus. split.
  - intros H. apply matches_Cat_inv in H.
    destruct H as (s1 & s2 & -> & H1 & H2).
    apply matches_Class_inv in H1. destruct H1 as (c & -> & Hf).
    apply matches_star_class in H2. simpl. rewrite Hf, H2.
    split; [discriminate | reflexivity].
  - intros [Hne H]. destruct s as [|c s]; [contradiction|].
    simpl in H. apply andb_true_iff in H. destruct H as [Hf Hs].
    apply (MCat (Class f) (Star (Class f)) (String c "") s);
      [constructor; exact Hf | apply matches_star_class, Hs].
Qed.

(** [hostRegex] accepts exactly the host-shaped strings. *)
Lemma hostRegex_hostShaped (s : string) :
  fullMatch hostRegex s = true <-> hostShaped s.
Proof.
  rewrite fullMatch_iff. unfold hostRegex, hostShaped. split.
  - intros H.
    apply matches_Cat_inv in H. destruct H as (host & s2 & -> & Hhost & H).
    apply matches_Cat_inv in H. destruct H as (sd & s3 & -> & Hdot & H).
    apply matches_Cat_inv in H. destruct H as (label & rest & -> & Hlabel & Hrest).
    apply matches_Class_inv in Hdot. destruct Hdot as (c & -> & Hc).
    unfold dot in Hc. apply Ascii.eqb_eq in Hc. subst c.
    apply matches_plus_class in Hhost. apply matches_plus_class in Hlabel.
    apply matches_star_class in Hrest.
    destruct Hhost as [Hh1 Hh2]. destruct Hlabel as [Hl1 Hl2].
    exists host, label, rest. repeat split; assumption.
  - intros (host & label & rest & -> & Hh1 & Hh2 & Hl1 & Hl2 & Hr).
    apply MCat; [apply matches_plus_class; auto|].
    apply (MCat _ _ "." (label ++ rest)); [constructor; reflexivity|].
    apply MCat; [apply matches_plus_class; auto|].
    apply matches_star_class, Hr.
Qed.

(** ** Facts about the evaluator *)

Lemma orElse_nil_iff (c k : option error) :
  (c ;;; k) = None <-> c = None /\ k = None.
Proof.
  destruct c; simpl; split; intros H; try discriminate; auto.
  - destruct H; discriminate.
  - destruct H; assumption.
Qed.

Ltac guarded_check E F :=
  match goal with
  | |- context [nonEmpty ?x] =>
      destruct (nonEmpty x) eqn:E;
      [apply nonEmpty_true_iff in E | apply nonEmpty_false_iff in E]
  end;
  try match goal with
      | |- context [EqualFold ?a ?b] => destruct (EqualFold a b) eqn:F
      end;
  cbn [negb].

Lemma checkSourceRepositoryOwnerURI_nil_iff (p : Policy)
    (r : Verification.AttestationProcessingResult) :
  checkSourceRepositoryOwnerURI p r = None <->
  fieldSatisfied (Extensions.SourceRepositoryOwnerURI (Policy.Extensions p))
    (Certificate.SourceRepositoryOwnerURI (Verification.certExtensions r)).
Proof.
  unfold checkSourceRepositoryOwnerURI, fieldSatisfied.
  guarded_check E F; split; intros H; auto; try discriminate.
  destruct H; congruence.
Qed.

Lemma checkSourceRepositoryURI_nil_iff (p : Policy)
    (r : Verification.AttestationProcessingResult) :
  checkSourceRepositoryURI p r = None <->
  fieldSatisfied (Extensions.SourceRepositoryURI (Policy.Extensions p))
    (Certificate.SourceRepositoryURI (Verification.certExtensions r)).
Proof.
  unfold checkSourceRepositoryURI, fieldSatisfied.
  guarded_check E F; split; intros H; auto; try discriminate.
  destruct H; congruence.
Qed.

Lemma checkOIDCIssuer_nil_iff (p : Policy)
    (r : Verification.AttestationProcessingResult) :
  checkOIDCIssuer p r = None <->
  fieldSatisfied (Policy.OIDCIssuer p)
    (Certificate.Issuer (Verification.certExtensions r)).
Proof.
  unfold checkOIDCIssuer, fieldSatisfied.
  guarded_check E F; split; intros H; auto; try discriminate.
  - destruct (Index _ _ =? 0)%Z; discriminate.
  - destruct H; congruence.
Qed.

Lemma verifyCertExtensions_nil_iff (p : Policy)
    (r : Verification.AttestationProcessingResult) :
  verifyCertExtensions p r = None <-> satisfies p r.
Proof.
  unfold verifyCertExtensions, satisfies.
  rewrite !orElse_nil_iff, checkSourceRepositoryOwnerURI_nil_iff,
    checkSourceRepositoryURI_nil_iff, checkOIDCIssuer_nil_iff.
  reflexivity.
Qed.

(** Every error of the per-result check is freshly allocated. *)
Lemma verifyCertExtensions_error_fresh (p : Policy)
    (r : Verification.AttestationProcessingResult) (err : error) :
  verifyCertExtensions p r = Some err -> exists msg, err = errorString msg.
Proof.
  unfold verifyCertExtensions, orElse, checkSourceRepositoryOwnerURI,
    checkSourceRepositoryURI, checkOIDCIssuer, GoErrors.Errorf.
  repeat match goal with
         | |- context [if ?b then _ else _] => destruct b
         end;
    intros H; inversion H; eauto.
Qed.

(** The loop, by cases on the results it meets. *)

Lemma verifyEach_all_pass (p : Policy)
    (results : list Verification.AttestationProcessingResult) (flag : bool) :
  Forall (fun r => verifyCertExtensions p r = None) results ->
  verifyEach p results flag
  = inr (match results with [] => flag | _ :: _ => true end).
Proof.
  intros H. revert flag.
  induction H as [|r rest Hr Hrest IH]; intros flag; simpl.
  - reflexivity.
  - rewrite Hr, IH. destruct rest; reflexivity.
Qed.

Lemma verifyEach_first_failure (p : Policy)
    (passed later : list Verification.AttestationProcessingResult)
    (failing : Verification.AttestationProcessingResult)
    (err : error) (flag : bool) :
  Forall (fun r => verifyCertExtensions p r = None) passed ->
  verifyCertExtensions p failing = Some err ->
  verifyEach p (passed ++ failing :: later)%list flag = inl err.
Proof.
  intros H Hf. revert flag.
  induction H as [|r rest Hr Hrest IH]; intros flag; simpl.
  - now rewrite Hf.
  - rewrite Hr. apply IH.
Qed.

(** A list of results either passes as a whole or splits at its first
    failing result. *)
Lemma pass_or_first_failure (p : Policy)
    (results : list Verification.AttestationProcessingResult) :
  Forall (fun r => verifyCertExtensions p r = None) results \/
  exists passed failing later err,
    results = (passed ++ failing :: later)%list /\
    Forall (fun r => verifyCertExtensions p r = None) passed /\
    verifyCertExtensions p failing = Some err.
Proof.
  induction results as [|r rest IH].
  - left. constructor.
  - destruct (verifyCertExtensions p r) as [err|] eqn:Hr.
    + right. exists [], r, rest, err. repeat split; [constructor | exact Hr].
    + destruct IH as [IH | (passed & failing & later & err & -> & Hp & Hf)].
      * left. constructor; assumption.
      * right. exists (r :: passed), failing, later, err.
        repeat split; [constructor; assumption | exact Hf].
Qed.

Lemma Forall_pass_satisfies (p : Policy)
    (results : list Verification.AttestationProcessingResult) :
  Forall (fun r => verifyCertExtensions p r = None) results <->
  Forall (satisfies p) results.
Proof.
  rewrite !Forall_forall. split; intros H r Hin;
    apply verifyCertExtensions_nil_iff, H, Hin.
Qed.

Lemma VerifyCertExtensions_nonempty (p : Policy)
    (r : Verification.AttestationProcessingResult)
    (rest : list Verification.AttestationProcessingResult) :
  VerifyCertExtensions p (r :: rest)
  = match verifyEach p (r :: rest) false with
    | inl err => Some err
    | inr atLeastOneVerified =>
        if atLeastOneVerified then None else Some ErrNoAttestationsVerified
    end.
Proof. reflexivity. Qed.

(** ** Facts about policy construction *)

(** The SAN resolution only writes the SAN fields. *)
Lemma resolveSAN_frame (opts : Options.t) (p p0 : Policy) :
  resolveSAN opts p = inl p0 ->
  Extensions.RunnerEnvironment (Policy.Extensions p0)
  = Extensions.RunnerEnvironment (Policy.Extensions p) /\
  Extensions.BuildSourceRepoURI (Policy.Extensions p0)
  = Extensions.BuildSourceRepoURI (Policy.Extensions p) /\
  Extensions.SourceRepositoryURI (Policy.Extensions p0)
  = Extensions.SourceRepositoryURI (Policy.Extensions p) /\
  Policy.PredicateType p0 = Policy.PredicateType p /\
  Policy.Artifact p0 = Policy.Artifact p.
Proof.
  unfold resolveSAN.
  destruct (nonEmpty (Options.SignerRepo opts)).
  - intros H; inversion H; subst; simpl; auto.
  - destruct (nonEmpty (Options.SignerWorkflow opts)).
    + destruct (validateSignerWorkflow opts) as [regex [err|]];
        intros H; inversion H; subst; simpl; auto.
    + intros H; inversion H; subst; simpl; auto.
Qed.

(** What [newPolicy] leaves in each field of a policy it returns without
    error, in terms of the outcome [p0] of the SAN resolution. *)
Lemma newPolicy_inv (opts : Options.t) (a : DigestedArtifact) (p : Policy) :
  newPolicy opts a = (p, None) ->
  exists p0,
    resolveSAN opts (Policy.Build Extensions.zero "" a "") = inl p0 /\
    Extensions.SANRegex (Policy.Extensions p)
    = Extensions.SANRegex (Policy.Extensions p0) /\
    Extensions.SAN (Policy.Extensions p)
    = Extensions.SAN (Policy.Extensions p0) /\
    Extensions.RunnerEnvironment (Policy.Extensions p)
    = (if Options.DenySelfHostedRunner opts then GitHubRunner else "*") /\
    Extensions.BuildSourceRepoURI (Policy.Extensions p)
    = (if nonEmpty (Options.Repo opts)
       then "https://github.com/" ++ Options.Repo opts else "") /\
    Extensions.SourceRepositoryURI (Policy.Extensions p) = "" /\
    Extensions.SourceRepositoryOwnerURI (Policy.Extensions p)
    = (if nonEmpty (Options.Tenant opts)
       then "https://" ++ Options.Tenant opts ++ ".ghe.com/" ++ Options.Owner opts
       else "https://github.com/" ++ Options.Owner opts) /\
    Policy.OIDCIssuer p
    = (if nonEmpty (Options.Tenant opts)
       then Sprintf GitHubTenantOIDCIssuer [Options.Tenant opts]
       else Options.OIDCIssuer opts).
Proof.
  unfold newPolicy.
  destruct (resolveSAN opts (Policy.Build Extensions.zero "" a ""))
    as [p0|err] eqn:Hsan; [|discriminate].
  destruct (resolveSAN_frame _ _ _ Hsan) as (_ & Hb & Hs & _).
  simpl in Hb, Hs.
  intros H. injection H as <-.
  exists p0. split; [reflexivity|].
  destruct (Options.DenySelfHostedRunner opts),
    (nonEmpty (Options.Repo opts)), (nonEmpty (Options.Tenant opts));
    cbn; rewrite ?append_empty_r; repeat split; auto.
Qed.

(** [newPolicy] returns an error only out of the SAN resolution. *)
Lemma newPolicy_resolved (opts : Options.t) (a : DigestedArtifact) (p0 : Policy) :
  resolveSAN opts (Policy.Build Extensions.zero "" a "") = inl p0 ->
  snd (newPolicy opts a) = None.
Proof.
  unfold newPolicy. intros ->. reflexivity.
Qed.

Lemma newPolicy_surjective_pair (opts : Options.t) (a : DigestedArtifact) :
  snd (newPolicy opts a) = None ->
  newPolicy opts a = (fst (newPolicy opts a), None).
Proof.
  destruct (newPolicy opts a) as [p e]. simpl. intros ->. reflexivity.
Qed.

Lemma expandToGitHubURL_public (ownerOrRepo : string) :
  expandToGitHubURL "" ownerOrRepo
  = "(?i)^https://github.com/" ++ ownerOrRepo ++ "/".
Proof. reflexivity. Qed.

Lemma expandToGitHubURL_tenant (tenant ownerOrRepo : string) :
  tenant <> "" ->
  expandToGitHubURL tenant ownerOrRepo
  = "(?i)^https://" ++ tenant ++ ".ghe.com/" ++ ownerOrRepo ++ "/".
Proof.
  intros H. unfold expandToGitHubURL.
  apply String.eqb_neq in H. rewrite H. reflexivity.
Qed.

Lemma resolveSAN_set_Repo (v : string) (opts : Options.t) (p : Policy) :
  resolveSAN (Options.set_Repo v opts) p = resolveSAN opts p.
Proof. destruct opts; reflexivity. Qed.

(** The per-result check reads three fields of the policy and nothing else. *)
Lemma verifyCertExtensions_reads (p q : Policy)
    (r : Verification.AttestationProcessingResult) :
  Extensions.SourceRepositoryOwnerURI (Policy.Extensions p)
  = Extensions.SourceRepositoryOwnerURI (Policy.Extensions q) ->
  Extensions.SourceRepositoryURI (Policy.Extensions p)
  = Extensions.SourceRepositoryURI (Policy.Extensions q) ->
  Policy.OIDCIssuer p = Policy.OIDCIssuer q ->
  verifyCertExtensions p r = verifyCertExtensions q r.
Proof.
  intros Ho Hu Hi.
  unfold verifyCertExtensions, checkSourceRepositoryOwnerURI,
    checkSourceRepositoryURI, checkOIDCIssuer.
  rewrite Ho, Hu, Hi. reflexivity.
Qed.

(** ** The properties stated by the specification *)

(** C1.  The per-result check returns no error exactly when each of the
    three expected values (SourceRepositoryOwnerURI, SourceRepositoryURI,
    OIDCIssuer) is either empty or equal, up to case, to the value observed
    in the certificate extensions; an expected value that is empty passes
    its check whatever was observed. *)
Theorem verifyCertExtensions_case_insensitive (p : Policy)
    (r : Verification.AttestationProcessingResult) :
  let e := Policy.Extensions p in
  let c := Verification.certExtensions r in
  verifyCertExtensions p r = None <->
  (Extensions.SourceRepositoryOwnerURI e = "" \/
   EqualFold (Extensions.SourceRepositoryOwnerURI e)
     (Certificate.SourceRepositoryOwnerURI c) = true) /\
  (Extensions.SourceRepositoryURI e = "" \/
   EqualFold (Extensions.SourceRepositoryURI e)
     (Certificate.SourceRepositoryURI c) = true) /\
  (Policy.OIDCIssuer p = "" \/
   EqualFold (Policy.OIDCIssuer p) (Certificate.Issuer c) = true).
Proof.
  cbv zeta. apply verifyCertExtensions_nil_iff.
Qed.

(** C2.  On a non-empty list of results, [VerifyCertExtensions] returns nil
    exactly when every result satisfies every populated constraint;
    otherwise the list splits at its first failing result and the error
    returned is that result's error, whatever results come after it. *)
Theorem VerifyCertExtensions_first_error (p : Policy)
    (results : list Verification.AttestationProcessingResult) :
  results <> [] ->
  (VerifyCertExtensions p results = None <-> Forall (satisfies p) results) /\
  (~ Forall (satisfies p) results ->
   exists passed failing later err,
     results = (passed ++ failing :: later)%list /\
     Forall (satisfies p) passed /\
     verifyCertExtensions p failing = Some err /\
     VerifyCertExtensions p results = Some err /\
     forall later', VerifyCertExtensions p (passed ++ failing :: later')%list
                    = Some err).
Proof.
  intros Hne.
  assert (Hfail : forall passed failing later err,
             Forall (fun r => verifyCertExtensions p r = None) passed ->
             verifyCertExtensions p failing = Some err ->
             VerifyCertExtensions p (passed ++ failing :: later)%list = Some err).
  { intros passed failing later err Hp Hf.
    pose proof (verifyEach_first_failure p passed later failing err false Hp Hf)
      as Hloop.
    destruct passed; simpl app in *;
      rewrite VerifyCertExtensions_nonempty, Hloop; reflexivity. }
  destruct (pass_or_first_failure p results)
    as [Hall | (passed & failing & later & err & -> & Hp & Hf)].
  - destruct results as [|r rest]; [contradiction|].
    rewrite VerifyCertExtensions_nonempty,
      (verifyEach_all_pass p (r :: rest) false Hall).
    apply Forall_pass_satisfies in Hall.
    split; [split; intros _; [exact Hall | reflexivity]
          | intros Hn; contradiction].
  - rewrite (Hfail passed failing later err Hp Hf).
    assert (Hnot : ~ Forall (fun r => verifyCertExtensions p r = None)
                     (passed ++ failing :: later)%list).
    { intros Hall. rewrite Forall_forall in Hall.
      specialize (Hall failing).
      rewrite Hall in Hf; [discriminate|].
      apply in_or_app. right. left. reflexivity. }
    split.
    + split; [discriminate|].
      intros Hall. apply Forall_pass_satisfies in Hall. contradiction.
    + intros _. exists passed, failing, later, err.
      repeat split; auto.
      apply Forall_pass_satisfies, Hp.
Qed.

(** C3.  On the empty list [VerifyCertExtensions] returns the error "no
    attestations proccessing results", and on no list at all does it return
    the sentinel [ErrNoAttestationsVerified]. *)
Theorem VerifyCertExtensions_fallback_unreachable (p : Policy) :
  VerifyCertExtensions p []
  = Some (GoErrors.New "no attestations proccessing results") /\
  forall results, VerifyCertExtensions p results <> Some ErrNoAttestationsVerified.
Proof.
  split; [reflexivity|].
  intros results.
  destruct results as [|r rest]; [discriminate|].
  rewrite VerifyCertExtensions_nonempty.
  destruct (pass_or_first_failure p (r :: rest))
    as [Hall | (passed & failing & later & err & Heq & Hp & Hf)].
  - rewrite (verifyEach_all_pass p (r :: rest) false Hall). discriminate.
  - rewrite Heq, (verifyEach_first_failure p passed later failing err false Hp Hf).
    destruct (verifyCertExtensions_error_fresh p failing err Hf) as [msg ->].
    discriminate.
Qed.

(** C4.  The SAN mode of [newPolicy] is resolved by priority.  With a
    non-empty SignerRepo the policy is built, SAN stays empty and SANRegex is
    [(?i)^https://github.com/<SignerRepo>/] without a tenant and
    [(?i)^https://<tenant>.ghe.com/<SignerRepo>/] with one, whatever the
    SignerWorkflow, SAN and SANRegex options hold.  Otherwise, with a
    non-empty SignerWorkflow, SANRegex is the outcome of the workflow
    validation, whose error is returned when it fails.  Otherwise SAN and
    SANRegex are the caller's. *)
Theorem newPolicy_SAN_priority (opts : Options.t) (a : DigestedArtifact) :
  let e := Policy.Extensions (fst (newPolicy opts a)) in
  (Options.SignerRepo opts <> "" ->
   snd (newPolicy opts a) = None /\
   Extensions.SAN e = "" /\
   (Options.Tenant opts = "" ->
    Extensions.SANRegex e
    = "(?i)^https://github.com/" ++ Options.SignerRepo opts ++ "/") /\
   (Options.Tenant opts <> "" ->
    Extensions.SANRegex e
    = "(?i)^https://" ++ Options.Tenant opts ++ ".ghe.com/"
        ++ Options.SignerRepo opts ++ "/")) /\
  (Options.SignerRepo opts = "" -> Options.SignerWorkflow opts <> "" ->
   (forall regex,
       validateSignerWorkflow opts = (regex, None) ->
       snd (newPolicy opts a) = None /\
       Extensions.SANRegex e = regex /\ Extensions.SAN e = "") /\
   (forall regex err,
       validateSignerWorkflow opts = (regex, Some err) ->
       newPolicy opts a = (zeroPolicy, Some err))) /\
  (Options.SignerRepo opts = "" -> Options.SignerWorkflow opts = "" ->
   snd (newPolicy opts a) = None /\
   Extensions.SANRegex e = Options.SANRegex opts /\
   Extensions.SAN e = Options.SAN opts).
Proof.
  cbv zeta.
  assert (Hbuilt : forall p0,
             resolveSAN opts (Policy.Build Extensions.zero "" a "") = inl p0 ->
             snd (newPolicy opts a) = None /\
             Extensions.SANRegex (Policy.Extensions (fst (newPolicy opts a)))
             = Extensions.SANRegex (Policy.Extensions p0) /\
             Extensions.SAN (Policy.Extensions (fst (newPolicy opts a)))
             = Extensions.SAN (Policy.Extensions p0)).
  { intros p0 Hsan.
    pose proof (newPolicy_resolved opts a p0 Hsan) as Hok.
    destruct (newPolicy_inv opts a _ (newPolicy_surjective_pair opts a Hok))
      as (p1 & Hsan' & Hre & Hs & _).
    rewrite Hsan in Hsan'. injection Hsan' as <-. auto. }
  split; [|split].
  - intros Hrepo. apply nonEmpty_true_iff in Hrepo.
    destruct (Hbuilt _ ltac:(unfold resolveSAN; rewrite Hrepo; reflexivity))
      as (Hok & Hre & Hs).
    rewrite Hre, Hs. simpl.
    repeat split; auto.
    + intros ->. apply expandToGitHubURL_public.
    + intros Ht. apply expandToGitHubURL_tenant, Ht.
  - intros Hrepo Hwf.
    apply nonEmpty_false_iff in Hrepo. apply nonEmpty_true_iff in Hwf.
    split.
    + intros regex Hv.
      destruct (Hbuilt _ ltac:(unfold resolveSAN; rewrite Hrepo, Hwf, Hv;
                                reflexivity)) as (Hok & Hre & Hs).
      rewrite Hre, Hs. auto.
    + intros regex err Hv.
      unfold newPolicy, resolveSAN. rewrite Hrepo, Hwf, Hv. reflexivity.
  - intros Hrepo Hwf.
    apply nonEmpty_false_iff in Hrepo. apply nonEmpty_false_iff in Hwf.
    destruct (Hbuilt _ ltac:(unfold resolveSAN; rewrite Hrepo, Hwf;
                              reflexivity)) as (Hok & Hre & Hs).
    rewrite Hre, Hs. auto.
Qed.

(** C5.  A policy built from options with a non-empty Repo has
    BuildSourceRepoURI [https://github.com/<Repo>], with or without a
    tenant: the tenant form assigned first is overwritten. *)
Theorem newPolicy_BuildSourceRepoURI (opts : Options.t) (a : DigestedArtifact)
    (p : Policy) :
  newPolicy opts a = (p, None) ->
  Options.Repo opts <> "" ->
  Extensions.BuildSourceRepoURI (Policy.Extensions p)
  = "https://github.com/" ++ Options.Repo opts.
Proof.
  intros Hnew Hrepo.
  destruct (newPolicy_inv opts a p Hnew) as (_ & _ & _ & _ & _ & Hb & _).
  apply nonEmpty_true_iff in Hrepo. rewrite Hrepo in Hb. exact Hb.
Qed.

(** C6, as amended.  For a policy with a non-empty OIDCIssuer and a result
    whose observed issuer differs from it up to case, and whose
    SourceRepositoryOwnerURI and SourceRepositoryURI checks pass: when the
    observed issuer is the expected issuer followed by "/" and anything, the
    check fails with the remediation error that names the
    --cert-oidc-issuer flag; otherwise it fails with the plain issuer
    mismatch error; both name the expected and the observed value. *)
Theorem verifyCertExtensions_issuer_errors (p : Policy)
    (r : Verification.AttestationProcessingResult) :
  let expected := Policy.OIDCIssuer p in
  let observed := Certificate.Issuer (Verification.certExtensions r) in
  expected <> "" ->
  EqualFold expected observed = false ->
  fieldSatisfied (Extensions.SourceRepositoryOwnerURI (Policy.Extensions p))
    (Certificate.SourceRepositoryOwnerURI (Verification.certExtensions r)) ->
  fieldSatisfied (Extensions.SourceRepositoryURI (Policy.Extensions p))
    (Certificate.SourceRepositoryURI (Verification.certExtensions r)) ->
  ((exists rest, observed = (expected ++ "/") ++ rest) ->
   verifyCertExtensions p r = Some (issuerRemediationError expected observed)) /\
  ((forall rest, observed <> (expected ++ "/") ++ rest) ->
   verifyCertExtensions p r = Some (issuerMismatchError expected observed)).
Proof.
  cbv zeta. intros Hset Hneq Howner Huri.
  apply checkSourceRepositoryOwnerURI_nil_iff in Howner.
  apply checkSourceRepositoryURI_nil_iff in Huri.
  apply nonEmpty_true_iff in Hset.
  unfold verifyCertExtensions. rewrite Howner, Huri. simpl.
  unfold checkOIDCIssuer. rewrite Hset, Hneq, Index_eqb_zero. cbn [negb].
  split.
  - intros [rest Hrest].
    rewrite Hrest at 1. rewrite HasPrefix_app.
    apply f_equal, Sprintf_issuer_remediation.
  - intros Hno.
    destruct (HasPrefix _ _) eqn:Hpre.
    + apply HasPrefix_inv in Hpre. destruct Hpre as [rest Hrest].
      elim (Hno rest Hrest).
    + apply f_equal, Sprintf_issuer_mismatch.
Qed.

(** C7.  Workflow validation.  When the signer workflow is host-shaped
    (it matches [hostRegex]: its leading token is followed by a dot and a
    further host byte) the result is [^https://<workflow>], whatever the
    Hostname option holds.  When it is not, the result is
    [^https://<hostname>/<workflow>] for a non-empty Hostname and the error
    "unknown host" for an empty one. *)
Theorem validateSignerWorkflow_cases (opts : Options.t) :
  let workflow := Options.SignerWorkflow opts in
  let hostname := Options.Hostname opts in
  (hostShaped workflow ->
   validateSignerWorkflow opts = ("^https://" ++ workflow, None)) /\
  (~ hostShaped workflow -> hostname <> "" ->
   validateSignerWorkflow opts
   = ("^https://" ++ hostname ++ "/" ++ workflow, None)) /\
  (~ hostShaped workflow -> hostname = "" ->
   validateSignerWorkflow opts = ("", Some (GoErrors.New "unknown host"))).
Proof.
  cbv zeta. unfold validateSignerWorkflow, GoRegexp.MatchString.
  rewrite <- hostRegex_hostShaped.
  destruct (fullMatch hostRegex (Options.SignerWorkflow opts)).
  - repeat split; intros H; try (now elim H).
    cbn. now rewrite append_empty_r.
  - repeat split; try discriminate.
    + intros _ Hhost. apply String.eqb_neq in Hhost. rewrite Hhost.
      cbn. now rewrite append_empty_r.
    + intros _ ->. reflexivity.
Qed.

(** C8.  A policy built by [newPolicy] has RunnerEnvironment
    "github-hosted" when DenySelfHostedRunner is true and "*" when it is
    false; it is never the empty string. *)
Theorem newPolicy_RunnerEnvironment (opts : Options.t) (a : DigestedArtifact)
    (p : Policy) :
  newPolicy opts a = (p, None) ->
  (Options.DenySelfHostedRunner opts = true ->
   Extensions.RunnerEnvironment (Policy.Extensions p) = "github-hosted") /\
  (Options.DenySelfHostedRunner opts = false ->
   Extensions.RunnerEnvironment (Policy.Extensions p) = "*") /\
  Extensions.RunnerEnvironment (Policy.Extensions p) <> "".
Proof.
  intros Hnew.
  destruct (newPolicy_inv opts a p Hnew) as (_ & _ & _ & _ & Hr & _).
  rewrite Hr.
  destruct (Options.DenySelfHostedRunner opts); repeat split;
    intros H; try reflexivity; discriminate.
Qed.

(** C9.  [VerifyPredicateType] returns an error exactly when filtering the
    attestations by the policy's predicate type leaves none; the error
    message then ends with that predicate type and a line feed, and no
    attestation is returned.  Otherwise it returns the filtered attestations
    and no error. *)
Theorem VerifyPredicateType_cases (p : Policy) (a : list Attestation) :
  let filtered := FilterAttestations (Policy.PredicateType p) a in
  (filtered = [] <-> snd (VerifyPredicateType p a) <> None) /\
  (filtered = [] ->
   VerifyPredicateType p a
   = ([], Some (errorString
                  (crossMark ++ " No attestations found with predicate type: "
                     ++ Policy.PredicateType p ++ lineFeed)))) /\
  (filtered <> [] -> VerifyPredicateType p a = (filtered, None)).
Proof.
  cbv zeta. unfold VerifyPredicateType.
  destruct (FilterAttestations (Policy.PredicateType p) a) as [|x rest];
    cbn [List.length Nat.eqb snd].
  - repeat split; try discriminate; intros; try reflexivity; contradiction.
  - repeat split; try discriminate; intros H; try reflexivity;
      contradiction.
Qed.

(** C10.  A policy built by [newPolicy] has an empty SourceRepositoryURI;
    the per-result check never reads BuildSourceRepoURI; so the check of a
    built policy does not depend on the SourceRepositoryURI observed in the
    certificate, and building from the same options with any other Repo
    gives a policy with the same verdict on every result. *)
Theorem newPolicy_Repo_not_enforced (opts : Options.t) (a : DigestedArtifact)
    (p : Policy) :
  newPolicy opts a = (p, None) ->
  Extensions.SourceRepositoryURI (Policy.Extensions p) = "" /\
  (forall (q : Policy) v r,
      verifyCertExtensions
        (Policy.update_Extensions (Extensions.set_BuildSourceRepoURI v) q) r
      = verifyCertExtensions q r) /\
  (forall r r',
      Certificate.SourceRepositoryOwnerURI (Verification.certExtensions r)
      = Certificate.SourceRepositoryOwnerURI (Verification.certExtensions r') ->
      Certificate.Issuer (Verification.certExtensions r)
      = Certificate.Issuer (Verification.certExtensions r') ->
      verifyCertExtensions p r = verifyCertExtensions p r') /\
  (forall repo,
      snd (newPolicy (Options.set_Repo repo opts) a) = None /\
      forall r,
        verifyCertExtensions (fst (newPolicy (Options.set_Repo repo opts) a)) r
        = verifyCertExtensions p r).
Proof.
  intros Hnew.
  destruct (newPolicy_inv opts a p Hnew)
    as (p0 & Hsan & _ & _ & _ & _ & Huri & Hown & Hiss).
  split; [exact Huri|]. split; [|split].
  - intros q v r. apply verifyCertExtensions_reads; reflexivity.
  - intros r r' Ho Hi.
    unfold verifyCertExtensions, checkSourceRepositoryOwnerURI,
      checkSourceRepositoryURI, checkOIDCIssuer.
    rewrite Huri, Ho, Hi. reflexivity.
  - intros repo.
    assert (Hok : snd (newPolicy (Options.set_Repo repo opts) a) = None).
    { apply (newPolicy_resolved _ a p0). now rewrite resolveSAN_set_Repo. }
    split; [exact Hok|].
    destruct (newPolicy_inv _ a _ (newPolicy_surjective_pair _ a Hok))
      as (_ & _ & _ & _ & _ & _ & Huri' & Hown' & Hiss').
    intros r. apply verifyCertExtensions_reads.
    + rewrite Hown', Hown. destruct opts; reflexivity.
    + rewrite Huri', Huri. reflexivity.
    + rewrite Hiss', Hiss. destruct opts; reflexivity.
Qed.

(** ** Further properties of the evaluator *)

Lemma Sprintf_owner_mismatch (expected observed : string) :
  GoErrors.Errorf "expected SourceRepositoryOwnerURI to be %s, got %s"
    [expected; observed]
  = errorString ("expected SourceRepositoryOwnerURI to be " ++ expected
                   ++ ", got " ++ observed).
Proof.
  unfold GoErrors.Errorf. simpl. now rewrite append_empty_r.
Qed.

Lemma Sprintf_repository_mismatch (expected observed : string) :
  GoErrors.Errorf "expected SourceRepositoryURI to be %s, got %s"
    [expected; observed]
  = errorString ("expected SourceRepositoryURI to be " ++ expected
                   ++ ", got " ++ observed).
Proof.
  unfold GoErrors.Errorf. simpl. now rewrite append_empty_r.
Qed.

(** The loop does not depend on the initial flag once it has met a result. *)
Lemma verifyEach_flag (p : Policy)
    (r : Verification.AttestationProcessingResult)
    (rest : list Verification.AttestationProcessingResult) (flag : bool) :
  verifyEach p (r :: rest) flag = verifyEach p (r :: rest) true.
Proof.
  simpl. reflexivity.
Qed.

Lemma verifyEach_app (p : Policy)
    (results later : list Verification.AttestationProcessingResult)
    (flag : bool) :
  verifyEach p (results ++ later)%list flag
  = match verifyEach p results flag with
    | inl err => inl err
    | inr seen => verifyEach p later seen
    end.
Proof.
  revert flag. induction results as [|r rest IH]; intros flag; simpl.
  - reflexivity.
  - destruct (verifyCertExtensions p r); [reflexivity | apply IH].
Qed.

(** The flag at the end of a loop over a non-empty list is set. *)
Lemma verifyEach_seen (p : Policy)
    (r : Verification.AttestationProcessingResult)
    (rest : list Verification.AttestationProcessingResult)
    (flag seen : bool) :
  verifyEach p (r :: rest) flag = inr seen -> seen = true.
Proof.
  destruct (pass_or_first_failure p (r :: rest))
    as [Hall | (passed & failing & later & err & Heq & Hp & Hf)].
  - rewrite (verifyEach_all_pass p (r :: rest) flag Hall).
    intros H. injection H as <-. reflexivity.
  - rewrite Heq, (verifyEach_first_failure p passed later failing err flag Hp Hf).
    discriminate.
Qed.

Lemma VerifyCertExtensions_nil_iff (p : Policy)
    (results : list Verification.AttestationProcessingResult) :
  VerifyCertExtensions p results = None <->
  results <> [] /\ Forall (satisfies p) results.
Proof.
  destruct results as [|r rest].
  - split; [discriminate | intros [H _]; contradiction].
  - rewrite VerifyCertExtensions_nonempty, <- Forall_pass_satisfies.
    destruct (pass_or_first_failure p (r :: rest))
      as [Hall | (passed & failing & later & err & Heq & Hp & Hf)].
    + rewrite (verifyEach_all_pass p (r :: rest) false Hall).
      split; [intros _; split; [discriminate | exact Hall] | reflexivity].
    + rewrite Heq,
        (verifyEach_first_failure p passed later failing err false Hp Hf).
      split; [discriminate|].
      intros [_ Hall]. rewrite Forall_forall in Hall.
      rewrite (Hall failing) in Hf; [discriminate|].
      apply in_or_app. right. left. reflexivity.
Qed.

(** X1.  The errors of the per-result check come in source order: a
    populated SourceRepositoryOwnerURI that differs from the observed one is
    reported whatever the other fields hold, and a populated
    SourceRepositoryURI that differs is reported when the owner check
    passes; both messages carry the expected and the observed value. *)
Theorem verifyCertExtensions_error_order (p : Policy)
    (r : Verification.AttestationProcessingResult) :
  let e := Policy.Extensions p in
  let c := Verification.certExtensions r in
  (Extensions.SourceRepositoryOwnerURI e <> "" ->
   EqualFold (Extensions.SourceRepositoryOwnerURI e)
     (Certificate.SourceRepositoryOwnerURI c) = false ->
   verifyCertExtensions p r
   = Some (errorString
             ("expected SourceRepositoryOwnerURI to be "
                ++ Extensions.SourceRepositoryOwnerURI e ++ ", got "
                ++ Certificate.SourceRepositoryOwnerURI c))) /\
  (fieldSatisfied (Extensions.SourceRepositoryOwnerURI e)
     (Certificate.SourceRepositoryOwnerURI c) ->
   Extensions.SourceRepositoryURI e <> "" ->
   EqualFold (Extensions.SourceRepositoryURI e)
     (Certificate.SourceRepositoryURI c) = false ->
   verifyCertExtensions p r
   = Some (errorString
             ("expected SourceRepositoryURI to be "
                ++ Extensions.SourceRepositoryURI e ++ ", got "
                ++ Certificate.SourceRepositoryURI c))).
Proof.
  cbv zeta. split.
  - intros Hset Hneq. apply nonEmpty_true_iff in Hset.
    unfold verifyCertExtensions, checkSourceRepositoryOwnerURI.
    rewrite Hset, Hneq. cbn [negb orElse].
    apply f_equal, Sprintf_owner_mismatch.
  - intros Howner Hset Hneq.
    apply checkSourceRepositoryOwnerURI_nil_iff in Howner.
    apply nonEmpty_true_iff in Hset.
    unfold verifyCertExtensions. rewrite Howner. cbn [orElse].
    unfold checkSourceRepositoryURI. rewrite Hset, Hneq. cbn [negb orElse].
    apply f_equal, Sprintf_repository_mismatch.
Qed.

(** X2.  Whether [VerifyCertExtensions] accepts a list of results does not
    depend on their order: a permutation of an accepted list is accepted
    (which error a rejected list gives does depend on it). *)
Theorem VerifyCertExtensions_permutation (p : Policy)
    (results results' : list Verification.AttestationProcessingResult) :
  Permutation results results' ->
  (VerifyCertExtensions p results = None <->
   VerifyCertExtensions p results' = None).
Proof.
  intros Hperm. rewrite !VerifyCertExtensions_nil_iff.
  assert (Hnil : results = [] <-> results' = []).
  { split; intros ->.
    - apply Permutation_nil, Hperm.
    - apply Permutation_nil, Permutation_sym, Hperm. }
  split; intros [Hne Hall]; split.
  - intros H. apply Hne, Hnil, H.
  - apply (Permutation_Forall Hperm Hall).
  - intros H. apply Hne, Hnil, H.
  - apply (Permutation_Forall (Permutation_sym Hperm) Hall).
Qed.

(** X3.  Checking two non-empty batches of results in one call is checking
    the first batch and then, when it is accepted, the second. *)
Theorem VerifyCertExtensions_app (p : Policy)
    (results later : list Verification.AttestationProcessingResult) :
  results <> [] -> later <> [] ->
  VerifyCertExtensions p (results ++ later)%list
  = (VerifyCertExtensions p results ;;; VerifyCertExtensions p later).
Proof.
  intros Hr Hl.
  destruct results as [|r rest]; [contradiction|].
  destruct later as [|l later]; [contradiction|].
  change ((r :: rest) ++ l :: later)%list
    with (r :: (rest ++ l :: later))%list.
  rewrite !VerifyCertExtensions_nonempty.
  change (r :: (rest ++ l :: later))%list
    with ((r :: rest) ++ l :: later)%list.
  rewrite verifyEach_app.
  destruct (verifyEach p (r :: rest) false) as [err|seen] eqn:Hloop.
  - reflexivity.
  - apply verifyEach_seen in Hloop. subst seen. cbn [orElse].
    rewrite (verifyEach_flag p l later false). reflexivity.
Qed.

(** X4.  Relaxing a policy never turns an accepted list of results into a
    rejected one: when [q] leaves each checked field either unconstrained or
    as in [p], every list that [p] accepts is accepted by [q]. *)
Theorem VerifyCertExtensions_relaxes (p q : Policy)
    (results : list Verification.AttestationProcessingResult) :
  relaxes q p ->
  VerifyCertExtensions p results = None ->
  VerifyCertExtensions q results = None.
Proof.
  intros (Ho & Hu & Hi). rewrite !VerifyCertExtensions_nil_iff.
  intros [Hne Hall]. split; [exact Hne|].
  apply (Forall_impl (satisfies q)) with (2 := Hall).
  intros r (So & Su & Si). unfold satisfies, fieldSatisfied in *.
  repeat split.
  - destruct Ho as [Ho|Ho]; [left; exact Ho | rewrite Ho; exact So].
  - destruct Hu as [Hu|Hu]; [left; exact Hu | rewrite Hu; exact Su].
  - destruct Hi as [Hi|Hi]; [left; exact Hi | rewrite Hi; exact Si].
Qed.

(** ** Further properties of policy construction *)

Lemma append_assoc (a b c : string) : (a ++ b) ++ c = a ++ (b ++ c).
Proof.
  induction a as [|x a IH]; simpl; [reflexivity | now rewrite IH].
Qed.

Lemma allBytes_app (f : ascii -> bool) (a b : string) :
  allBytes f (a ++ b) = allBytes f a && allBytes f b.
Proof.
  induction a as [|x a IH]; simpl; [reflexivity|].
  now rewrite IH, andb_assoc.
Qed.

Lemma hostChar_anyChar (c : ascii) : hostChar c = true -> anyChar c = true.
Proof.
  unfold hostChar, anyChar, inRange. intros H.
  apply negb_true_iff, N.eqb_neq. intros Hlf.
  rewrite Hlf in H. cbn in H.
  apply Ascii.eqb_eq in H. subst c. discriminate.
Qed.

Lemma allBytes_hostChar_anyChar (s : string) :
  allBytes hostChar s = true -> allBytes anyChar s = true.
Proof.
  induction s as [|c s IH]; simpl; [reflexivity|].
  rewrite !andb_true_iff. intros [Hc Hs].
  split; [apply hostChar_anyChar, Hc | apply IH, Hs].
Qed.

(** A host-shaped string has no line feed. *)
Lemma hostShaped_no_line_feed (s : string) :
  hostShaped s -> allBytes anyChar s = true.
Proof.
  intros (host & label & rest & -> & _ & Hh & _ & Hl & Hr).
  rewrite !allBytes_app, Hr.
  rewrite (allBytes_hostChar_anyChar host Hh),
    (allBytes_hostChar_anyChar label Hl).
  reflexivity.
Qed.

(** A host-shaped string stays host-shaped when bytes other than line feeds
    are appended. *)
Lemma hostShaped_app (s t : string) :
  hostShaped s -> allBytes anyChar t = true -> hostShaped (s ++ t).
Proof.
  intros (host & label & rest & -> & Hh1 & Hh2 & Hl1 & Hl2 & Hr) Ht.
  exists host, label, (rest ++ t).
  repeat split; try assumption.
  - now rewrite !append_assoc.
  - rewrite allBytes_app, Hr, Ht. reflexivity.
Qed.

(** A string whose leading run of host bytes ends at a byte that is neither
    a host byte nor a dot is not host-shaped. *)
Lemma not_hostShaped_break (run rest : string) (c : ascii) :
  allBytes hostChar run = true -> hostChar c = false -> c <> "."%char ->
  ~ hostShaped (run ++ String c rest).
Proof.
  intros Hrun Hc Hdot (host & label & rest' & Heq & _ & Hhost & _).
  revert host Heq Hhost.
  induction run as [|x run IH]; intros host Heq Hhost.
  - destruct host as [|y host]; simpl in Heq, Hhost.
    + injection Heq as Hy _. apply Hdot. exact Hy.
    + injection Heq as Hy _. subst y.
      rewrite Hc in Hhost. discriminate.
  - simpl in Hrun. apply andb_true_iff in Hrun. destruct Hrun as [Hx Hrun].
    destruct host as [|y host]; simpl in Heq, Hhost.
    + injection Heq as Hy _. subst x. discriminate.
    + injection Heq as _ Heq.
      apply andb_true_iff in Hhost. destruct Hhost as [_ Hhost].
      exact (IH Hrun host Heq Hhost).
Qed.

Lemma validateSignerWorkflow_hostShaped (opts : Options.t) :
  hostShaped (Options.SignerWorkflow opts) ->
  validateSignerWorkflow opts
  = ("^https://" ++ Options.SignerWorkflow opts, None).
Proof.
  intros H. apply hostRegex_hostShaped in H.
  unfold validateSignerWorkflow, MatchString. rewrite H.
  cbn. now rewrite append_empty_r.
Qed.

Lemma validateSignerWorkflow_not_hostShaped (opts : Options.t) :
  ~ hostShaped (Options.SignerWorkflow opts) ->
  validateSignerWorkflow opts
  = if Options.Hostname opts =? "" then
      ("", Some (GoErrors.New "unknown host"))
    else
      ("^https://" ++ Options.Hostname opts ++ "/"
         ++ Options.SignerWorkflow opts, None).
Proof.
  intros H. rewrite <- hostRegex_hostShaped in H.
  apply not_true_is_false in H.
  unfold validateSignerWorkflow, MatchString. rewrite H.
  destruct (Options.Hostname opts =? ""); [reflexivity|].
  cbn. now rewrite append_empty_r.
Qed.

(** What [newPolicy] leaves in the fields that no statement of it assigns. *)
Lemma newPolicy_frame (opts : Options.t) (a : DigestedArtifact) (p : Policy) :
  newPolicy opts a = (p, None) ->
  Policy.PredicateType p = "" /\
  Extensions.SignerWorkflow (Policy.Extensions p) = "" /\
  Policy.Artifact p = a.
Proof.
  unfold newPolicy.
  destruct (resolveSAN opts (Policy.Build Extensions.zero "" a ""))
    as [p0|err] eqn:Hsan; [|discriminate].
  assert (Hp0 : Policy.PredicateType p0 = "" /\
                Extensions.SignerWorkflow (Policy.Extensions p0) = "" /\
                Policy.Artifact p0 = a).
  { revert Hsan. unfold resolveSAN.
    destruct (nonEmpty (Options.SignerRepo opts)).
    - intros H; injection H as <-; auto.
    - destruct (nonEmpty (Options.SignerWorkflow opts)).
      + destruct (validateSignerWorkflow opts) as [regex [err|]];
          intros H; [discriminate|]. injection H as <-; auto.
      + intros H; injection H as <-; auto. }
  destruct Hp0 as (Hpt & Hwf & Hart).
  intros H. injection H as <-.
  destruct (Options.DenySelfHostedRunner opts),
    (nonEmpty (Options.Repo opts)), (nonEmpty (Options.Tenant opts));
    cbn; auto.
Qed.

(** X5.  [newPolicy] fails exactly when the signer repository is empty, the
    signer workflow is set but not host-shaped, and no hostname is given; it
    then returns the zero policy and the error "unknown host". *)
Theorem newPolicy_error_iff (opts : Options.t) (a : DigestedArtifact) :
  (snd (newPolicy opts a) <> None <->
   Options.SignerRepo opts = "" /\
   Options.SignerWorkflow opts <> "" /\
   ~ hostShaped (Options.SignerWorkflow opts) /\
   Options.Hostname opts = "") /\
  (snd (newPolicy opts a) <> None ->
   newPolicy opts a = (zeroPolicy, Some (GoErrors.New "unknown host"))).
Proof.
  unfold newPolicy, resolveSAN.
  destruct (nonEmpty (Options.SignerRepo opts)) eqn:Hrepo.
  { apply nonEmpty_true_iff in Hrepo. cbn [snd]. split.
    - split; [intros H; now elim H | intros (H & _); contradiction].
    - intros H; now elim H. }
  apply nonEmpty_false_iff in Hrepo.
  destruct (nonEmpty (Options.SignerWorkflow opts)) eqn:Hwf.
  2:{ apply nonEmpty_false_iff in Hwf. cbn [snd]. split.
      - split; [intros H; now elim H | intros (_ & H & _); contradiction].
      - intros H; now elim H. }
  apply nonEmpty_true_iff in Hwf.
  destruct (fullMatch hostRegex (Options.SignerWorkflow opts)) eqn:Hm.
  { pose proof (proj1 (hostRegex_hostShaped _) Hm) as Hshape.
    rewrite (validateSignerWorkflow_hostShaped opts Hshape). cbn [snd]. split.
    - split; [intros H; now elim H | intros (_ & _ & H & _); contradiction].
    - intros H; now elim H. }
  assert (Hshape : ~ hostShaped (Options.SignerWorkflow opts)).
  { rewrite <- hostRegex_hostShaped, Hm. discriminate. }
  rewrite (validateSignerWorkflow_not_hostShaped opts Hshape).
  destruct (String.eqb_spec (Options.Hostname opts) "") as [Hhost|Hhost];
    cbn [snd]; split.
  - split; [intros _; auto | discriminate].
  - reflexivity.
  - split; [intros H; now elim H | intros (_ & _ & _ & H); contradiction].
  - intros H; now elim H.
Qed.

(** X6.  A built policy always constrains the owner: its
    SourceRepositoryOwnerURI is [https://github.com/<Owner>] without a tenant
    and [https://<tenant>.ghe.com/<Owner>] with one, never empty.  Its
    OIDCIssuer is the caller's OIDCIssuer option without a tenant; with a
    tenant it is the tenant issuer format applied to the tenant, and the
    caller's option is not used. *)
Theorem newPolicy_owner_and_issuer (opts : Options.t) (a : DigestedArtifact)
    (p : Policy) :
  newPolicy opts a = (p, None) ->
  (Options.Tenant opts = "" ->
   Extensions.SourceRepositoryOwnerURI (Policy.Extensions p)
   = "https://github.com/" ++ Options.Owner opts /\
   Policy.OIDCIssuer p = Options.OIDCIssuer opts) /\
  (Options.Tenant opts <> "" ->
   Extensions.SourceRepositoryOwnerURI (Policy.Extensions p)
   = "https://" ++ Options.Tenant opts ++ ".ghe.com/" ++ Options.Owner opts /\
   Policy.OIDCIssuer p
   = Sprintf GitHubTenantOIDCIssuer [Options.Tenant opts]) /\
  Extensions.SourceRepositoryOwnerURI (Policy.Extensions p) <> "".
Proof.
  intros Hnew.
  destruct (newPolicy_inv opts a p Hnew)
    as (_ & _ & _ & _ & _ & _ & _ & Hown & Hiss).
  rewrite Hown, Hiss.
  destruct (nonEmpty (Options.Tenant opts)) eqn:Ht;
    [apply nonEmpty_true_iff in Ht | apply nonEmpty_false_iff in Ht].
  - split; [intros H; contradiction|].
    split; [intros _; split; reflexivity | cbn; discriminate].
  - split; [intros _; split; reflexivity|].
    split; [intros H; contradiction | cbn; discriminate].
Qed.

(** X7.  What a built policy enforces on a result: the result is accepted
    exactly when its owner equals the expected owner URI up to case
    ([https://github.com/<Owner>] without a tenant,
    [https://<tenant>.ghe.com/<Owner>] with one) and the expected issuer (the
    OIDCIssuer option without a tenant, the formatted tenant issuer with
    one) is empty or equals its issuer up to case.  Neither the Repo option
    nor the repository in the certificate plays a part. *)
Theorem newPolicy_verifyCertExtensions (opts : Options.t)
    (a : DigestedArtifact) (p : Policy)
    (r : Verification.AttestationProcessingResult) :
  newPolicy opts a = (p, None) ->
  let c := Verification.certExtensions r in
  (Options.Tenant opts = "" ->
   (verifyCertExtensions p r = None <->
    EqualFold ("https://github.com/" ++ Options.Owner opts)
      (Certificate.SourceRepositoryOwnerURI c) = true /\
    (Options.OIDCIssuer opts = "" \/
     EqualFold (Options.OIDCIssuer opts) (Certificate.Issuer c) = true))) /\
  (Options.Tenant opts <> "" ->
   (verifyCertExtensions p r = None <->
    EqualFold
      ("https://" ++ Options.Tenant opts ++ ".ghe.com/" ++ Options.Owner opts)
      (Certificate.SourceRepositoryOwnerURI c) = true /\
    (Sprintf GitHubTenantOIDCIssuer [Options.Tenant opts] = "" \/
     EqualFold (Sprintf GitHubTenantOIDCIssuer [Options.Tenant opts])
       (Certificate.Issuer c) = true))).
Proof.
  intros Hnew. cbv zeta.
  destruct (newPolicy_inv opts a p Hnew)
    as (_ & _ & _ & _ & _ & _ & Huri & Hown & Hiss).
  rewrite verifyCertExtensions_nil_iff. unfold satisfies, fieldSatisfied.
  rewrite Hown, Huri, Hiss.
  split; intros Ht;
    [apply nonEmpty_false_iff in Ht | apply nonEmpty_true_iff in Ht];
    rewrite Ht; split.
  - intros ([Ho|Ho] & _ & Hi); [discriminate | auto].
  - intros (Ho & Hi). auto.
  - intros ([Ho|Ho] & _ & Hi); [cbn in Ho; discriminate | auto].
  - intros (Ho & Hi). auto.
Qed.

(** X8.  [newPolicy] sets neither the predicate type nor the
    Extensions.SignerWorkflow field, and keeps the artifact it is given; so
    [VerifyPredicateType] on a policy as built filters on the empty
    predicate type. *)
Theorem newPolicy_leaves_PredicateType (opts : Options.t)
    (a : DigestedArtifact) (p : Policy) :
  newPolicy opts a = (p, None) ->
  Policy.PredicateType p = "" /\
  Extensions.SignerWorkflow (Policy.Extensions p) = "" /\
  Policy.Artifact p = a /\
  forall attestations,
    fst (VerifyPredicateType p attestations)
    = FilterAttestations "" attestations.
Proof.
  intros Hnew.
  destruct (newPolicy_frame opts a p Hnew) as (Hpt & Hwf & Hart).
  repeat split; try assumption.
  intros attestations. unfold VerifyPredicateType. rewrite Hpt.
  destruct (FilterAttestations "" attestations); reflexivity.
Qed.

(** ** Further properties of the workflow validation *)

Lemma hostShaped_nonempty (s : string) : hostShaped s -> s <> "".
Proof.
  intros (host & label & rest & -> & Hh & _).
  destruct host; [contradiction | discriminate].
Qed.

(** X9.  Falling back on the Hostname option gives what naming the host in
    the workflow gives: when the Hostname is host-shaped and the workflow is
    free of line feeds and not host-shaped, the result for the workflow is
    the result for [<hostname>/<workflow>], under any Hostname option. *)
Theorem validateSignerWorkflow_default_host (opts : Options.t)
    (hostname' : string) :
  hostShaped (Options.Hostname opts) ->
  ~ hostShaped (Options.SignerWorkflow opts) ->
  allBytes anyChar (Options.SignerWorkflow opts) = true ->
  validateSignerWorkflow
    (Options.set_workflow
       (Options.Hostname opts ++ "/" ++ Options.SignerWorkflow opts)
       hostname' opts)
  = validateSignerWorkflow opts.
Proof.
  intros Hhost Hwf Hlf.
  rewrite (validateSignerWorkflow_not_hostShaped opts Hwf).
  pose proof (hostShaped_nonempty _ Hhost) as Hne.
  apply String.eqb_neq in Hne. rewrite Hne.
  rewrite validateSignerWorkflow_hostShaped.
  - destruct opts; reflexivity.
  - destruct opts; cbn in *. apply hostShaped_app; [exact Hhost|].
    cbn. exact Hlf.
Qed.

(** X10.  A workflow whose leading run of host bytes is followed by a byte
    that is neither a host byte nor a dot (a workflow that starts with a
    scheme such as [https://], or with a slash) is not taken to name its
    host: it is prefixed with the Hostname option, and refused with "unknown
    host" when that is empty. *)
Theorem validateSignerWorkflow_no_dot (opts : Options.t)
    (run rest : string) (c : ascii) :
  Options.SignerWorkflow opts = run ++ String c rest ->
  allBytes hostChar run = true ->
  hostChar c = false ->
  c <> "."%char ->
  (Options.Hostname opts <> "" ->
   validateSignerWorkflow opts
   = ("^https://" ++ Options.Hostname opts ++ "/"
        ++ Options.SignerWorkflow opts, None)) /\
  (Options.Hostname opts = "" ->
   validateSignerWorkflow opts = ("", Some (GoErrors.New "unknown host"))).
Proof.
  intros Heq Hrun Hc Hdot.
  assert (Hwf : ~ hostShaped (Options.SignerWorkflow opts)).
  { rewrite Heq. apply not_hostShaped_break; assumption. }
  rewrite (validateSignerWorkflow_not_hostShaped opts Hwf).
  split; intros Hhost.
  - apply String.eqb_neq in Hhost. rewrite Hhost. reflexivity.
  - rewrite Hhost. reflexivity.
Qed.

(** X11.  A workflow that contains a line feed is never taken to name its
    host, even when it starts with one: it is prefixed with the Hostname
    option, and refused with "unknown host" when that is empty. *)
Theorem validateSignerWorkflow_line_feed (opts : Options.t) :
  allBytes anyChar (Options.SignerWorkflow opts) = false ->
  (Options.Hostname opts <> "" ->
   validateSignerWorkflow opts
   = ("^https://" ++ Options.Hostname opts ++ "/"
        ++ Options.SignerWorkflow opts, None)) /\
  (Options.Hostname opts = "" ->
   validateSignerWorkflow opts = ("", Some (GoErrors.New "unknown host"))).
Proof.
  intros Hlf.
  assert (Hwf : ~ hostShaped (Options.SignerWorkflow opts)).
  { intros H. apply hostShaped_no_line_feed in H. congruence. }
  rewrite (validateSignerWorkflow_not_hostShaped opts Hwf).
  split; intros Hhost.
  - apply String.eqb_neq in Hhost. rewrite Hhost. reflexivity.
  - rewrite Hhost. reflexivity.
Qed.

(** ** Further properties of the predicate-type filter and the sigstore
       policy *)

(** X12.  [Verify] and [VerifyPredicateType] agree: [Verify] answers true
    exactly when [VerifyPredicateType] returns no error, its message is then
    empty, and otherwise its message is the message of that error. *)
Theorem Verify_VerifyPredicateType (p : Policy) (a : list Attestation) :
  (fst (Verify p a) = true <-> snd (VerifyPredicateType p a) = None) /\
  (fst (Verify p a) = true -> snd (Verify p a) = "") /\
  (fst (Verify p a) = false ->
   snd (VerifyPredicateType p a) = Some (errorString (snd (Verify p a)))).
Proof.
  unfold Verify, VerifyPredicateType, GoErrors.Errorf.
  destruct (List.length (FilterAttestations (Policy.PredicateType p) a) =? 0)%nat;
    cbn [fst snd]; repeat split; intros H; try reflexivity; discriminate.
Qed.

(** The sigstore policy reads four fields of the policy. *)
Lemma SigstorePolicy_reads (p q : Policy) :
  Policy.Artifact p = Policy.Artifact q ->
  Extensions.SAN (Policy.Extensions p) = Extensions.SAN (Policy.Extensions q) ->
  Extensions.SANRegex (Policy.Extensions p)
  = Extensions.SANRegex (Policy.Extensions q) ->
  Extensions.RunnerEnvironment (Policy.Extensions p)
  = Extensions.RunnerEnvironment (Policy.Extensions q) ->
  SigstorePolicy p = SigstorePolicy q.
Proof.
  intros Ha Hs Hr He.
  unfold SigstorePolicy, buildCertificateIdentityOption.
  rewrite Ha, Hs, Hr, He. reflexivity.
Qed.

(** X13.  The sigstore policy of a built policy does not depend on the
    Owner, Repo and OIDCIssuer options: together with the extension check,
    which does not depend on Repo either, no check made from a built policy
    involves the Repo option. *)
Theorem SigstorePolicy_ignores_owner_repo_issuer (opts : Options.t)
    (a : DigestedArtifact) (owner repo issuer : string) :
  SigstorePolicy
    (fst (newPolicy
            (Options.set_Owner owner
               (Options.set_Repo repo (Options.set_OIDCIssuer issuer opts)))
            a))
  = SigstorePolicy (fst (newPolicy opts a)).
Proof.
  unfold newPolicy.
  replace (resolveSAN
             (Options.set_Owner owner
                (Options.set_Repo repo (Options.set_OIDCIssuer issuer opts)))
             (Policy.Build Extensions.zero "" a ""))
    with (resolveSAN opts (Policy.Build Extensions.zero "" a ""))
    by (destruct opts; reflexivity).
  destruct (resolveSAN opts (Policy.Build Extensions.zero "" a ""))
    as [p0|err]; [|reflexivity].
  apply SigstorePolicy_reads; destruct opts as [? ? ? ? deny ? tenant ? ? ?];
    cbn;
    destruct deny, (nonEmpty repo), (nonEmpty Repo), (nonEmpty tenant);
    reflexivity.
Qed.

(** X14.  The options of the SAN modes that lose the priority play no part
    at all in the result of [newPolicy]: with a signer repository, the
    SignerWorkflow, Hostname, SAN and SANRegex options can be changed at will
    (a workflow that would be refused causes no error); with a signer
    workflow and no signer repository, so can the SAN and SANRegex
    options. *)
Theorem newPolicy_ignores_losing_modes (opts : Options.t)
    (a : DigestedArtifact) (workflow hostname san sanRegex : string) :
  (Options.SignerRepo opts <> "" ->
   newPolicy
     (Options.set_workflow workflow hostname
        (Options.set_rawSAN san sanRegex opts)) a
   = newPolicy opts a) /\
  (Options.SignerRepo opts = "" -> Options.SignerWorkflow opts <> "" ->
   newPolicy (Options.set_rawSAN san sanRegex opts) a = newPolicy opts a).
Proof.
  split.
  - intros Hrepo. apply nonEmpty_true_iff in Hrepo.
    unfold newPolicy, resolveSAN.
    destruct opts as [signerRepo ? ? ? ? ? ? ? ? ?].
    cbn in Hrepo |- *. rewrite Hrepo. reflexivity.
  - intros Hrepo Hwf.
    apply nonEmpty_false_iff in Hrepo. apply nonEmpty_true_iff in Hwf.
    unfold newPolicy, resolveSAN.
    destruct opts as [signerRepo signerWorkflow ? ? ? ? ? ? ? ?].
    cbn in Hrepo, Hwf |- *. rewrite Hrepo, Hwf. reflexivity.
Qed.

(** X15.  Matching against [hostRegex] never reports an error, and it
    succeeds exactly on the strings made of a non-empty run of the bytes
    [a-zA-Z0-9-], a dot, another such non-empty run, and a rest without line
    feed; such a string is not empty and has no line feed at all. *)
Theorem MatchString_hostRegex (s : string) :
  snd (MatchString hostRegex s) = None /\
  (fst (MatchString hostRegex s) = true <->
   exists host label rest,
     s = host ++ "." ++ label ++ rest /\
     host <> "" /\ allBytes hostChar host = true /\
     label <> "" /\ allBytes hostChar label = true /\
     allBytes anyChar rest = true) /\
  (fst (MatchString hostRegex s) = true ->
   s <> "" /\ allBytes anyChar s = true).
Proof.
  unfold MatchString. cbn [fst snd].
  split; [reflexivity|]. split.
  - apply hostRegex_hostShaped.
  - intros H. apply hostRegex_hostShaped in H.
    split; [apply hostShaped_nonempty, H | apply hostShaped_no_line_feed, H].
Qed.

End PolicyCore.

Arguments newPolicy {DigestedArtifact} zeroArtifact GitHubTenantOIDCIssuer opts a.
Arguments zeroPolicy {DigestedArtifact} zeroArtifact.
Arguments verifyCertExtensions {DigestedArtifact} EqualFold p attestation.
Arguments VerifyCertExtensions {DigestedArtifact} EqualFold p results.
Arguments VerifyPredicateType {DigestedArtifact Attestation} FilterAttestations p a.

(** ** The properties at concrete inputs *)

(** The specification's example for C1: the expected owner
    [https://github.com/OCTO] accepts the observed [https://github.com/octo],
    whatever repository the certificate names. *)
Lemma verifyCertExtensions_case_insensitive_witness :
  verifyCertExtensions EqualFoldASCII
    (ownerIssuerPolicy "https://github.com/OCTO" "")
    (observed "https://token.actions.githubusercontent.com"
       "https://github.com/octo" "https://github.com/octo/repo")
  = None.
Proof.
  apply (verifyCertExtensions_case_insensitive string EqualFoldASCII).
  repeat split; [right | left | left]; reflexivity.
Defined.

(** C2 on three results of which the second fails: the error is the second
    result's, and the third is not looked at. *)
Lemma VerifyCertExtensions_first_error_witness :
  let p := ownerIssuerPolicy "https://github.com/octo" "" in
  let good := observed "" "https://github.com/OCTO" "" in
  let bad := observed "" "https://github.com/mallory" "" in
  let worse := observed "" "https://github.com/eve" "" in
  [good; bad; worse] <> [] /\
  VerifyCertExtensions EqualFoldASCII p [good; bad; worse]
  = Some (errorString
            "expected SourceRepositoryOwnerURI to be https://github.com/octo, got https://github.com/mallory").
Proof.
  cbv zeta. split; [discriminate|].
  destruct (VerifyCertExtensions_first_error string EqualFoldASCII
              (ownerIssuerPolicy "https://github.com/octo" "")
              [observed "" "https://github.com/OCTO" "";
               observed "" "https://github.com/mallory" "";
               observed "" "https://github.com/eve" ""]
              ltac:(discriminate)) as [_ Hfirst].
  destruct Hfirst as (passed & failing & later & err & _ & _ & _ & Hres & _).
  - intros Hall. inversion Hall as [|? ? _ Hrest]. inversion Hrest as [|? ? Hbad _].
    destruct Hbad as [[Hbad|Hbad] _]; vm_compute in Hbad; discriminate.
  - rewrite Hres. vm_compute in Hres. symmetry. exact Hres.
Defined.


(** C4 on the three modes: a signer repository with and without a tenant
    (the workflow, SAN and SANRegex options are set too and are ignored), a
    signer workflow with and without a host to fall back on, and the raw
    SAN options. *)
Lemma newPolicy_SAN_priority_witness :
  let built opts :=
    Policy.Extensions
      (fst (newPolicy "" exampleTenantIssuer opts exampleArtifact)) in
  (Extensions.SANRegex (built (signerRepoOptions "acme"))
   = "(?i)^https://acme.ghe.com/octo/signer/" /\
   Extensions.SAN (built (signerRepoOptions "acme")) = "") /\
  Extensions.SANRegex (built (signerRepoOptions ""))
  = "(?i)^https://github.com/octo/signer/" /\
  Extensions.SANRegex
    (built (workflowOptions "octo/repo/.github/workflows/ci.yml" "github.com"))
  = "^https://github.com/octo/repo/.github/workflows/ci.yml" /\
  newPolicy "" exampleTenantIssuer
    (workflowOptions "octo/repo/.github/workflows/ci.yml" "") exampleArtifact
  = (zeroPolicy "", Some (errorString "unknown host")) /\
  (Extensions.SANRegex (built rawSANOptions) = "^https://example" /\
   Extensions.SAN (built rawSANOptions) = "https://example.com/san").
Proof.
  cbv zeta.
  pose proof (fun opts =>
                newPolicy_SAN_priority string "" exampleTenantIssuer opts
                  exampleArtifact) as H.
  cbv zeta in H.
  repeat apply conj.
  - destruct (H (signerRepoOptions "acme")) as [Hrepo _].
    destruct (Hrepo ltac:(discriminate)) as (_ & _ & _ & Ht).
    exact (Ht ltac:(discriminate)).
  - destruct (H (signerRepoOptions "acme")) as [Hrepo _].
    destruct (Hrepo ltac:(discriminate)) as (_ & Hsan & _).
    exact Hsan.
  - destruct (H (signerRepoOptions "")) as [Hrepo _].
    destruct (Hrepo ltac:(discriminate)) as (_ & _ & Ht & _).
    exact (Ht eq_refl).
  - destruct (H (workflowOptions "octo/repo/.github/workflows/ci.yml"
                   "github.com")) as (_ & Hwf & _).
    destruct (Hwf eq_refl ltac:(discriminate)) as [Hok _].
    destruct (Hok "^https://github.com/octo/repo/.github/workflows/ci.yml"
                eq_refl) as (_ & Hre & _).
    exact Hre.
  - destruct (H (workflowOptions "octo/repo/.github/workflows/ci.yml" ""))
      as (_ & Hwf & _).
    destruct (Hwf eq_refl ltac:(discriminate)) as [_ Herr].
    exact (Herr "" (errorString "unknown host") eq_refl).
  - destruct (H rawSANOptions) as (_ & _ & Hraw).
    destruct (Hraw eq_refl eq_refl) as (_ & Hre & _). exact Hre.
  - destruct (H rawSANOptions) as (_ & _ & Hraw).
    destruct (Hraw eq_refl eq_refl) as (_ & _ & Hsan). exact Hsan.
Defined.

(** C5 with a tenant: the tenant form of the URI is not what is kept. *)
Lemma newPolicy_BuildSourceRepoURI_witness :
  Extensions.BuildSourceRepoURI
    (Policy.Extensions
       (fst (newPolicy "" exampleTenantIssuer (repoOptions "acme" false)
               exampleArtifact)))
  = "https://github.com/octo/repo".
Proof.
  apply (newPolicy_BuildSourceRepoURI string "" exampleTenantIssuer
           (repoOptions "acme" false) exampleArtifact);
    [reflexivity | discriminate].
Defined.

(** C6 as stated fails when an earlier check fails: the owner differs, so
    the error is the owner's, although the observed issuer is the expected
    one followed by "/enterprise-x". *)
Lemma issuer_error_preceded_by_owner_error :
  let p := ownerIssuerPolicy "https://github.com/octo" "https://issuer.example" in
  let r := observed "https://issuer.example/enterprise-x"
             "https://github.com/mallory" "" in
  Policy.OIDCIssuer p <> "" /\
  EqualFoldASCII (Policy.OIDCIssuer p)
    (Certificate.Issuer (Verification.certExtensions r)) = false /\
  Certificate.Issuer (Verification.certExtensions r)
  = (Policy.OIDCIssuer p ++ "/") ++ "enterprise-x" /\
  verifyCertExtensions EqualFoldASCII p r
  = Some (errorString
            "expected SourceRepositoryOwnerURI to be https://github.com/octo, got https://github.com/mallory") /\
  verifyCertExtensions EqualFoldASCII p r
  <> Some (issuerRemediationError (Policy.OIDCIssuer p)
             (Certificate.Issuer (Verification.certExtensions r))).
Proof.
  cbv zeta. repeat apply conj; try reflexivity; discriminate.
Defined.

(** C6 as amended, on the specification's example: with the owner matching,
    the issuer [https://issuer.example/enterprise-x] is refused by
    [https://issuer.example] with the remediation error, and
    [https://other.example] with the plain mismatch. *)
Lemma verifyCertExtensions_issuer_errors_witness :
  let p := ownerIssuerPolicy "https://github.com/octo" "https://issuer.example" in
  verifyCertExtensions EqualFoldASCII p
    (observed "https://issuer.example/enterprise-x" "https://github.com/octo" "")
  = Some (errorString
            "expected Issuer to be https://issuer.example, got https://issuer.example/enterprise-x -- if you have a custom OIDC issuer policy for your enterprise, use the --cert-oidc-issuer flag with your expected issuer") /\
  verifyCertExtensions EqualFoldASCII p
    (observed "https://other.example" "https://github.com/octo" "")
  = Some (errorString
            "expected Issuer to be https://issuer.example, got https://other.example").
Proof.
  cbv zeta. split.
  - apply (verifyCertExtensions_issuer_errors string EqualFoldASCII
             (ownerIssuerPolicy "https://github.com/octo" "https://issuer.example")
             (observed "https://issuer.example/enterprise-x"
                "https://github.com/octo" "")).
    + discriminate.
    + reflexivity.
    + right. reflexivity.
    + left. reflexivity.
    + exists "enterprise-x". reflexivity.
  - apply (verifyCertExtensions_issuer_errors string EqualFoldASCII
             (ownerIssuerPolicy "https://github.com/octo" "https://issuer.example")
             (observed "https://other.example" "https://github.com/octo" "")).
    + discriminate.
    + reflexivity.
    + right. reflexivity.
    + left. reflexivity.
    + intros rest Hrest. discriminate Hrest.
Defined.

(** C7 on the specification's examples: a workflow that names its host, and
    one that does not, without and with a Hostname. *)
Lemma validateSignerWorkflow_cases_witness :
  validateSignerWorkflow
    (workflowOptions "github.com/octo/repo/.github/workflows/ci.yml" "")
  = ("^https://github.com/octo/repo/.github/workflows/ci.yml", None) /\
  validateSignerWorkflow
    (workflowOptions "octo/repo/.github/workflows/ci.yml" "")
  = ("", Some (errorString "unknown host")) /\
  validateSignerWorkflow
    (workflowOptions "octo/repo/.github/workflows/ci.yml" "github.com")
  = ("^https://github.com/octo/repo/.github/workflows/ci.yml", None).
Proof.
  assert (Hbare : ~ hostShaped "octo/repo/.github/workflows/ci.yml").
  { intros H. apply hostRegex_hostShaped in H. vm_compute in H. discriminate. }
  repeat apply conj.
  - apply (validateSignerWorkflow_cases
             (workflowOptions "github.com/octo/repo/.github/workflows/ci.yml" "")).
    exists "github", "com", "/octo/repo/.github/workflows/ci.yml".
    repeat apply conj; try reflexivity; discriminate.
  - apply (validateSignerWorkflow_cases
             (workflowOptions "octo/repo/.github/workflows/ci.yml" ""));
      [exact Hbare | reflexivity].
  - apply (validateSignerWorkflow_cases
             (workflowOptions "octo/repo/.github/workflows/ci.yml" "github.com"));
      [exact Hbare | discriminate].
Defined.

(** C8 on both settings of DenySelfHostedRunner. *)
Lemma newPolicy_RunnerEnvironment_witness :
  let built deny :=
    Policy.Extensions
      (fst (newPolicy "" exampleTenantIssuer (repoOptions "" deny)
              exampleArtifact)) in
  Extensions.RunnerEnvironment (built true) = "github-hosted" /\
  Extensions.RunnerEnvironment (built false) = "*".
Proof.
  cbv zeta. split.
  - apply (newPolicy_RunnerEnvironment string "" exampleTenantIssuer
             (repoOptions "" true) exampleArtifact); reflexivity.
  - apply (newPolicy_RunnerEnvironment string "" exampleTenantIssuer
             (repoOptions "" false) exampleArtifact); reflexivity.
Defined.

(** C9 with the filter of the specification on three attestations: the one
    provenance attestation is returned for the provenance predicate, and an
    error that names the predicate for one that none of them declares. *)
Lemma VerifyPredicateType_cases_witness :
  let attestations :=
    [Api.BuildAttestation 1 spdxDocument;
     Api.BuildAttestation 2 slsaProvenance;
     Api.BuildAttestation 3 spdxDocument] in
  VerifyPredicateType Api.FilterAttestations (predicatePolicy slsaProvenance)
    attestations
  = ([Api.BuildAttestation 2 slsaProvenance], None) /\
  VerifyPredicateType Api.FilterAttestations (predicatePolicy "vuln")
    attestations
  = ([], Some (errorString
                 (crossMark ++ " No attestations found with predicate type: vuln"
                    ++ lineFeed))).
Proof.
  cbv zeta. split.
  - apply (VerifyPredicateType_cases string Api.Attestation
             Api.FilterAttestations (predicatePolicy slsaProvenance)).
    discriminate.
  - apply (VerifyPredicateType_cases string Api.Attestation
             Api.FilterAttestations (predicatePolicy "vuln")).
    reflexivity.
Defined.

(** C10 on a policy built for the repository octo/repo: its
    SourceRepositoryURI is empty, a certificate for another repository of the
    same owner gets the verdict of one for octo/repo, and so does the policy
    built for another repository. *)
Lemma newPolicy_Repo_not_enforced_witness :
  let build opts :=
    fst (newPolicy "" exampleTenantIssuer opts exampleArtifact) in
  let p := build (repoOptions "" false) in
  let issuer := "https://token.actions.githubusercontent.com" in
  Extensions.SourceRepositoryURI (Policy.Extensions p) = "" /\
  verifyCertExtensions EqualFoldASCII p
    (observed issuer "https://github.com/octo" "https://github.com/octo/other")
  = verifyCertExtensions EqualFoldASCII p
      (observed issuer "https://github.com/octo" "https://github.com/octo/repo") /\
  verifyCertExtensions EqualFoldASCII
    (build (Options.set_Repo "octo/other" (repoOptions "" false)))
    (observed issuer "https://github.com/octo" "https://github.com/octo/repo")
  = verifyCertExtensions EqualFoldASCII p
      (observed issuer "https://github.com/octo" "https://github.com/octo/repo").
Proof.
  cbv zeta.
  destruct (newPolicy_Repo_not_enforced string "" exampleTenantIssuer
              EqualFoldASCII (repoOptions "" false) exampleArtifact
              (fst (newPolicy "" exampleTenantIssuer (repoOptions "" false)
                      exampleArtifact)) eq_refl)
    as (Huri & _ & Hcert & Hrepo).
  repeat apply conj.
  - exact Huri.
  - apply Hcert; reflexivity.
  - apply (Hrepo "octo/other").
Defined.

(** The verdict in question: a policy built for octo/repo accepts a
    certificate issued for octo/other. *)
Example built_policy_accepts_other_repository :
  verifyCertExtensions EqualFoldASCII
    (fst (newPolicy "" exampleTenantIssuer (repoOptions "" false)
            exampleArtifact))
    (observed "https://token.actions.githubusercontent.com"
       "https://github.com/octo" "https://github.com/octo/other")
  = None.
Proof. reflexivity. Qed.

(** The derived SAN expressions of the specification's examples. *)
Example expandToGitHubURL_examples :
  expandToGitHubURL "" "octo/repo" = "(?i)^https://github.com/octo/repo/" /\
  expandToGitHubURL "acme" "octo/repo" = "(?i)^https://acme.ghe.com/octo/repo/".
Proof. split; reflexivity. Qed.

(** ** The further properties at concrete inputs *)

Arguments Verify {DigestedArtifact Attestation} FilterAttestations p a.

(** X1: the owner error comes first although the issuer differs too, and
    the repository error comes once the owner matches. *)
Lemma verifyCertExtensions_error_order_witness :
  verifyCertExtensions EqualFoldASCII
    (ownerIssuerPolicy "https://github.com/octo" "https://issuer.example")
    (observed "https://other.example" "https://github.com/mallory" "")
  = Some (errorString
            "expected SourceRepositoryOwnerURI to be https://github.com/octo, got https://github.com/mallory") /\
  verifyCertExtensions EqualFoldASCII
    (ownerRepositoryPolicy "https://github.com/octo" "https://github.com/octo/repo")
    (observed "" "https://github.com/Octo" "https://github.com/octo/other")
  = Some (errorString
            "expected SourceRepositoryURI to be https://github.com/octo/repo, got https://github.com/octo/other").
Proof.
  split.
  - apply (verifyCertExtensions_error_order string EqualFoldASCII
             (ownerIssuerPolicy "https://github.com/octo" "https://issuer.example")
             (observed "https://other.example" "https://github.com/mallory" ""));
      [discriminate | reflexivity].
  - apply (verifyCertExtensions_error_order string EqualFoldASCII
             (ownerRepositoryPolicy "https://github.com/octo"
                "https://github.com/octo/repo")
             (observed "" "https://github.com/Octo"
                "https://github.com/octo/other"));
      [right; reflexivity | discriminate | reflexivity].
Defined.

(** X2: two accepted results, in either order. *)
Lemma VerifyCertExtensions_permutation_witness :
  let p := ownerIssuerPolicy "https://github.com/octo" "" in
  let r1 := observed "" "https://github.com/OCTO" "" in
  let r2 := observed "" "https://github.com/octo" "https://github.com/octo/repo" in
  Permutation [r1; r2] [r2; r1] /\
  VerifyCertExtensions EqualFoldASCII p [r2; r1] = None.
Proof.
  cbv zeta. split; [apply perm_swap|].
  apply (VerifyCertExtensions_permutation string EqualFoldASCII
           (ownerIssuerPolicy "https://github.com/octo" "")
           [observed "" "https://github.com/OCTO" "";
            observed "" "https://github.com/octo" "https://github.com/octo/repo"]
           [observed "" "https://github.com/octo" "https://github.com/octo/repo";
            observed "" "https://github.com/OCTO" ""]);
    [apply perm_swap | reflexivity].
Defined.

(** X3: an accepted batch followed by a batch whose first result fails. *)
Lemma VerifyCertExtensions_app_witness :
  let p := ownerIssuerPolicy "https://github.com/octo" "" in
  let good := observed "" "https://github.com/OCTO" "" in
  let bad := observed "" "https://github.com/mallory" "" in
  VerifyCertExtensions EqualFoldASCII p ([good; good] ++ [bad; good])%list
  = VerifyCertExtensions EqualFoldASCII p [bad; good].
Proof.
  cbv zeta.
  rewrite (VerifyCertExtensions_app string EqualFoldASCII
             (ownerIssuerPolicy "https://github.com/octo" "")
             [observed "" "https://github.com/OCTO" "";
              observed "" "https://github.com/OCTO" ""]
             [observed "" "https://github.com/mallory" "";
              observed "" "https://github.com/OCTO" ""]
             ltac:(discriminate) ltac:(discriminate)).
  reflexivity.
Defined.

(** X4: dropping the issuer constraint keeps an accepted result accepted. *)
Lemma VerifyCertExtensions_relaxes_witness :
  let r := observed "https://issuer.example" "https://github.com/octo" "" in
  relaxes string (ownerIssuerPolicy "https://github.com/octo" "")
    (ownerIssuerPolicy "https://github.com/octo" "https://issuer.example") /\
  VerifyCertExtensions EqualFoldASCII
    (ownerIssuerPolicy "https://github.com/octo" "") [r] = None.
Proof.
  cbv zeta.
  assert (Hrel : relaxes string (ownerIssuerPolicy "https://github.com/octo" "")
                   (ownerIssuerPolicy "https://github.com/octo"
                      "https://issuer.example")).
  { repeat split; [right | left | left]; reflexivity. }
  split; [exact Hrel|].
  apply (VerifyCertExtensions_relaxes string EqualFoldASCII
           (ownerIssuerPolicy "https://github.com/octo" "https://issuer.example")
           (ownerIssuerPolicy "https://github.com/octo" "")
           [observed "https://issuer.example" "https://github.com/octo" ""]
           Hrel).
  reflexivity.
Defined.

(** X5: a workflow without a host and no hostname to fall back on. *)
Lemma newPolicy_error_iff_witness :
  newPolicy "" exampleTenantIssuer
    (workflowOptions "octo/repo/.github/workflows/ci.yml" "") exampleArtifact
  = (zeroPolicy "", Some (errorString "unknown host")).
Proof.
  destruct (newPolicy_error_iff string "" exampleTenantIssuer
              (workflowOptions "octo/repo/.github/workflows/ci.yml" "")
              exampleArtifact) as [Hiff Herr].
  apply Herr, Hiff.
  repeat split; try reflexivity; try discriminate.
  intros H. apply hostRegex_hostShaped in H. vm_compute in H. discriminate.
Defined.

(** X6: with the tenant acme the issuer is the tenant's, although the
    options name another one. *)
Lemma newPolicy_owner_and_issuer_witness :
  let opts := repoOptions "acme" false in
  let p := fst (newPolicy "" exampleTenantIssuer opts exampleArtifact) in
  Options.OIDCIssuer opts = "https://token.actions.githubusercontent.com" /\
  Extensions.SourceRepositoryOwnerURI (Policy.Extensions p)
  = "https://acme.ghe.com/octo" /\
  Policy.OIDCIssuer p = "https://token.actions.acme.ghe.com".
Proof.
  cbv zeta. split; [reflexivity|].
  destruct (newPolicy_owner_and_issuer string "" exampleTenantIssuer
              (repoOptions "acme" false) exampleArtifact
              (fst (newPolicy "" exampleTenantIssuer (repoOptions "acme" false)
                      exampleArtifact)) eq_refl) as (_ & Htenant & _).
  exact (Htenant ltac:(discriminate)).
Defined.

(** X7: a policy built for octo/repo accepts a certificate of the owner for
    another repository. *)
Lemma newPolicy_verifyCertExtensions_witness :
  verifyCertExtensions EqualFoldASCII
    (fst (newPolicy "" exampleTenantIssuer (repoOptions "" false)
            exampleArtifact))
    (observed "https://token.actions.githubusercontent.com"
       "https://github.com/OCTO" "https://github.com/octo/other")
  = None.
Proof.
  destruct (newPolicy_verifyCertExtensions string "" exampleTenantIssuer
              EqualFoldASCII (repoOptions "" false) exampleArtifact
              (fst (newPolicy "" exampleTenantIssuer (repoOptions "" false)
                      exampleArtifact))
              (observed "https://token.actions.githubusercontent.com"
                 "https://github.com/OCTO" "https://github.com/octo/other")
              eq_refl) as [Hpublic _].
  apply (Hpublic eq_refl).
  split; [reflexivity | right; reflexivity].
Defined.

(** X8: a policy as built finds no provenance attestation, since it filters
    on the empty predicate type. *)
Lemma newPolicy_leaves_PredicateType_witness :
  fst (VerifyPredicateType Api.FilterAttestations
         (fst (newPolicy "" exampleTenantIssuer (repoOptions "" false)
                 exampleArtifact))
         [Api.BuildAttestation 1 slsaProvenance])
  = [].
Proof.
  destruct (newPolicy_leaves_PredicateType string "" exampleTenantIssuer
              Api.Attestation Api.FilterAttestations
              (repoOptions "" false) exampleArtifact
              (fst (newPolicy "" exampleTenantIssuer (repoOptions "" false)
                      exampleArtifact)) eq_refl) as (_ & _ & _ & Hfilter).
  rewrite Hfilter. reflexivity.
Defined.


(** X9: the workflow of the specification's example under the hostname
    github.com, and the same workflow with github.com written in front. *)
Lemma validateSignerWorkflow_default_host_witness :
  validateSignerWorkflow
    (workflowOptions "github.com/octo/repo/.github/workflows/ci.yml" "")
  = validateSignerWorkflow
      (workflowOptions "octo/repo/.github/workflows/ci.yml" "github.com").
Proof.
  apply (validateSignerWorkflow_default_host
           (workflowOptions "octo/repo/.github/workflows/ci.yml" "github.com")
           "").
  - exists "github", "com", "". repeat split; try reflexivity; discriminate.
  - intros H. apply hostRegex_hostShaped in H. vm_compute in H. discriminate.
  - reflexivity.
Defined.

(** X10: a workflow given as a URL is prefixed once more. *)
Lemma validateSignerWorkflow_no_dot_witness :
  validateSignerWorkflow
    (workflowOptions "https://github.com/octo/repo/.github/workflows/ci.yml"
       "github.com")
  = ("^https://github.com/https://github.com/octo/repo/.github/workflows/ci.yml",
     None).
Proof.
  apply (validateSignerWorkflow_no_dot
           (workflowOptions
              "https://github.com/octo/repo/.github/workflows/ci.yml"
              "github.com")
           "https" "//github.com/octo/repo/.github/workflows/ci.yml" ":");
    try reflexivity; discriminate.
Defined.

(** X11: a workflow that names its host and ends with a line feed. *)
Lemma validateSignerWorkflow_line_feed_witness :
  validateSignerWorkflow
    (workflowOptions ("github.com/octo/repo/ci.yml" ++ lineFeed) "ghe.example")
  = ("^https://ghe.example/github.com/octo/repo/ci.yml" ++ lineFeed, None).
Proof.
  apply (validateSignerWorkflow_line_feed
           (workflowOptions ("github.com/octo/repo/ci.yml" ++ lineFeed)
              "ghe.example"));
    [reflexivity | discriminate].
Defined.

(** X12: [Verify] on attestations of which one declares the predicate. *)
Lemma Verify_VerifyPredicateType_witness :
  let attestations :=
    [Api.BuildAttestation 1 spdxDocument;
     Api.BuildAttestation 2 slsaProvenance] in
  Verify Api.FilterAttestations (predicatePolicy slsaProvenance) attestations
  = (true, "") /\
  snd (VerifyPredicateType Api.FilterAttestations (predicatePolicy "vuln")
         attestations)
  = Some (errorString
            (snd (Verify Api.FilterAttestations (predicatePolicy "vuln")
                    attestations))).
Proof.
  cbv zeta. split.
  - destruct (Verify_VerifyPredicateType string Api.Attestation
                Api.FilterAttestations (predicatePolicy slsaProvenance)
                [Api.BuildAttestation 1 spdxDocument;
                 Api.BuildAttestation 2 slsaProvenance]) as (Hiff & Hmsg & _).
    pose proof (proj2 Hiff eq_refl) as Hok. specialize (Hmsg Hok).
    destruct (Verify Api.FilterAttestations (predicatePolicy slsaProvenance)
                [Api.BuildAttestation 1 spdxDocument;
                 Api.BuildAttestation 2 slsaProvenance]) as [ok msg].
    simpl in Hok, Hmsg. subst. reflexivity.
  - apply (Verify_VerifyPredicateType string Api.Attestation
             Api.FilterAttestations (predicatePolicy "vuln")
             [Api.BuildAttestation 1 spdxDocument;
              Api.BuildAttestation 2 slsaProvenance]).
    reflexivity.
Defined.

(** X14: with the signer repository set, a workflow that would be refused
    and other SAN options give the same policy. *)
Lemma newPolicy_ignores_losing_modes_witness :
  newPolicy "" exampleTenantIssuer
    (Options.set_workflow "octo/repo/ci.yml" ""
       (Options.set_rawSAN "" "" (signerRepoOptions "acme")))
    exampleArtifact
  = newPolicy "" exampleTenantIssuer (signerRepoOptions "acme") exampleArtifact /\
  newPolicy "" exampleTenantIssuer
    (Options.set_rawSAN "" "" (workflowOptions "github.com/octo/repo/ci.yml" ""))
    exampleArtifact
  = newPolicy "" exampleTenantIssuer
      (workflowOptions "github.com/octo/repo/ci.yml" "") exampleArtifact.
Proof.
  split;
    [|apply (proj2 (newPolicy_ignores_losing_modes string "" exampleTenantIssuer
                      (workflowOptions "github.com/octo/repo/ci.yml" "")
                      exampleArtifact "" "" "" ""));
      [reflexivity | discriminate]].
  apply (proj1 (newPolicy_ignores_losing_modes string "" exampleTenantIssuer
                  (signerRepoOptions "acme") exampleArtifact
                  "octo/repo/ci.yml" "" "" "")).
  discriminate.
Defined.

(** X15: the host of the specification's example, and a bare path. *)
Lemma MatchString_hostRegex_witness :
  fst (GoRegexp.MatchString hostRegex
         "github.com/octo/repo/.github/workflows/ci.yml")
  = true /\
  "github.com/octo/repo/.github/workflows/ci.yml" <> "".
Proof.
  destruct (MatchString_hostRegex
              "github.com/octo/repo/.github/workflows/ci.yml")
    as (_ & Hiff & Hshape).
  assert (Hm : fst (GoRegexp.MatchString hostRegex
                      "github.com/octo/repo/.github/workflows/ci.yml") = true).
  { apply Hiff.
    exists "github", "com", "/octo/repo/.github/workflows/ci.yml".
    repeat split; try reflexivity; discriminate. }
  split; [exact Hm | apply (Hshape Hm)].
Defined.

